(** * django-notifications: the notification model, its queryset and the
      signal handler ([notifications/models.py])

    A shallow embedding of the module: Python values that travel through
    the loosely typed signal payload, the [Notification] row, the table of
    rows, the [NotificationQuerySet] bulk operations, [notify_handler] and
    the [__unicode__] rendering, followed by the properties of the
    specification that were checked against them. *)

From stdpp Require Import base gmap strings list pretty sorting.
From Stdlib Require Import ZArith Lia Ascii String.

Local Open Scope string_scope.
Local Open Scope Z_scope.
Local Open Scope list_scope.
Set Warnings "-register-all".

(** ** Python values and exceptions *)

(** The values a signal payload can carry.  [VObj] is a model instance:
    its model label (what [ContentType.objects.get_for_model] keys on),
    its primary key, which is [None] until the instance is saved, its
    [unicode()] form and its attributes. *)
Inductive Value : Type :=
| VNone
| VBool (b : bool)
| VInt (z : Z)
| VStr (s : string)
| VTime (t : Z)
| VDict (d : list (string * Value))
| VObj (model : string) (pk : option Z) (repr : string)
    (attrs : list (string * Value)).

Inductive Exn : Type :=
| KeyError (key : string)
| TypeError (msg : string)
| AttributeError (attr : string)
| ValueError (msg : string)
| ValidationError (field : string)
| IntegrityError (column : string)
| ImproperlyConfigured (msg : string)
| FormatNotModelled (spec : string).

Inductive result (A : Type) : Type :=
| Ok (a : A)
| Raise (e : Exn).
Arguments Ok {A} a.
Arguments Raise {A} e.

#[global] Instance result_ret : MRet result := fun A a => Ok a.
#[global] Instance result_bind : MBind result := fun A B f m =>
  match m with
  | Ok a => f a
  | Raise e => Raise e
  end.

(** Python truth value ([bool(v)], [if v:]).  Model instances define
    neither [__nonzero__] nor [__len__], so they are true. *)
Definition truthy (v : Value) : bool :=
  match v with
  | VNone => false
  | VBool b => b
  | VInt z => negb (Z.eqb z 0)
  | VStr s => negb (String.eqb s "")
  | VTime _ => true
  | VDict d => match d with [] => false | _ => true end
  | VObj _ _ _ _ => true
  end.

Fixpoint assoc (k : string) (l : list (string * Value)) : option Value :=
  match l with
  | [] => None
  | (k', v) :: l' => if String.eqb k k' then Some v else assoc k l'
  end.

(** [getattr(v, name)]; attributes of built-in values are outside the
    model and are reported as missing. *)
Definition getattr (v : Value) (name : string) : result Value :=
  match v with
  | VObj _ _ _ attrs =>
      match assoc name attrs with
      | Some a => Ok a
      | None => Raise (AttributeError name)
      end
  | _ => Raise (AttributeError name)
  end.

(** [obj.pk]: the key of a saved instance, [None] for one that was never
    saved. *)
Definition pk_of (v : Value) : result (option Z) :=
  match v with
  | VObj _ pk _ _ => Ok pk
  | _ => Raise (AttributeError "pk")
  end.

(** A content type is identified by the label of its model. *)
Definition ContentType : Type := string.

(** [ContentType.objects.get_for_model(obj)] reads [obj._meta]. *)
Definition get_for_model (v : Value) : result ContentType :=
  match v with
  | VObj model _ _ _ => Ok model
  | _ => Raise (AttributeError "_meta")
  end.

(** ** Keyword arguments *)

Abbreviation kwargs_t := (gmap string Value).

(** [kwargs.pop(key)] *)
Definition pop (key : string) (kwargs : kwargs_t) : result (Value * kwargs_t) :=
  match kwargs !! key with
  | Some v => Ok (v, delete key kwargs)
  | None => Raise (KeyError key)
  end.

(** [kwargs.pop(key, default)] *)
Definition pop_default (key : string) (default : Value) (kwargs : kwargs_t)
  : Value * kwargs_t :=
  match kwargs !! key with
  | Some v => (v, delete key kwargs)
  | None => (default, kwargs)
  end.

(** [len(kwargs)] as a truth value *)
Definition nonempty (kwargs : kwargs_t) : bool :=
  negb (bool_decide (kwargs = ∅)).

(** ** The model *)

(** A user row; [filter(recipient=u)] compares the foreign key with
    [u.pk].  A model instance is always true in a condition. *)
Record User := { user_pk : Z; username : string }.

(** [Notification]: one field per column of the class body (lines 80-109);
    [data] and [custom_ctx] are the two columns contributed to the class
    only when [NOTIFY_USE_JSONFIELD] is set (lines 155-173).  [id] is
    [None] until the instance is saved; [recipient] holds the key of the
    referenced user. *)
Record Notification := {
  id : option Z;
  level : string;
  recipient : Z;
  unread : bool;
  actor_content_type : ContentType;
  actor_object_id : Z;
  verb : string;
  description : Value;
  target_content_type : option ContentType;
  target_object_id : option Z;
  action_object_content_type : option ContentType;
  action_object_object_id : option Z;
  timestamp : Z;
  public : bool;
  custom_str_format : Value;
  data : option kwargs_t;
  custom_ctx : Value
}.

Definition set_id (k : Z) (n : Notification) : Notification :=
  {| id := Some k; level := level n; recipient := recipient n;
     unread := unread n;
     actor_content_type := actor_content_type n;
     actor_object_id := actor_object_id n;
     verb := verb n; description := description n;
     target_content_type := target_content_type n;
     target_object_id := target_object_id n;
     action_object_content_type := action_object_content_type n;
     action_object_object_id := action_object_object_id n;
     timestamp := timestamp n; public := public n;
     custom_str_format := custom_str_format n;
     data := data n; custom_ctx := custom_ctx n |}.

Definition set_unread (b : bool) (n : Notification) : Notification :=
  {| id := id n; level := level n; recipient := recipient n;
     unread := b;
     actor_content_type := actor_content_type n;
     actor_object_id := actor_object_id n;
     verb := verb n; description := description n;
     target_content_type := target_content_type n;
     target_object_id := target_object_id n;
     action_object_content_type := action_object_content_type n;
     action_object_object_id := action_object_object_id n;
     timestamp := timestamp n; public := public n;
     custom_str_format := custom_str_format n;
     data := data n; custom_ctx := custom_ctx n |}.

(** The table of notifications, keyed by primary key. *)
Abbreviation Table := (gmap Z Notification).

(** [Model.save()] of an instance whose values are those of a row: without
    an [id] it is inserted under a key the table does not use yet, with
    one it overwrites its own row. *)
Definition save (self : Notification) (t : Table) : Notification * Table :=
  match id self with
  | Some k => (self, <[k := self]> t)
  | None =>
      let k := fresh (dom t) in
      (set_id k self, <[k := set_id k self]> t)
  end.

(** ** The instance before its first save *)

(** The instance [notify_handler] builds, as Python holds it until
    [save()]: every attribute holds what was assigned to it.  The key of
    an unsaved related object is [None] and the timestamp is whatever the
    payload gave; [level] and [unread] have the defaults of their columns
    and there is no [id] yet. *)
Module Instance.

Record t := {
  level : string;
  recipient_id : option Z;
  unread : bool;
  actor_content_type : ContentType;
  actor_object_id : option Z;
  verb : string;
  description : Value;
  target_content_type : option ContentType;
  target_object_id : option Z;
  action_object_content_type : option ContentType;
  action_object_object_id : option Z;
  timestamp : Value;
  public : bool;
  custom_str_format : Value;
  data : option kwargs_t;
  custom_ctx : Value
}.

(** [newnotify.data = kwargs] *)
Definition set_data (d : kwargs_t) (n : t) : t :=
  {| level := level n; recipient_id := recipient_id n; unread := unread n;
     actor_content_type := actor_content_type n;
     actor_object_id := actor_object_id n;
     verb := verb n; description := description n;
     target_content_type := target_content_type n;
     target_object_id := target_object_id n;
     action_object_content_type := action_object_content_type n;
     action_object_object_id := action_object_object_id n;
     timestamp := timestamp n; public := public n;
     custom_str_format := custom_str_format n;
     data := Some d; custom_ctx := custom_ctx n |}.

(** [setattr(n, '%s_object_id' % opt, pk)] for the two generic relations *)
Definition setattr_object_id (opt : string) (pk : option Z) (n : t) : t :=
  if String.eqb opt "target" then
    {| level := level n; recipient_id := recipient_id n; unread := unread n;
       actor_content_type := actor_content_type n;
       actor_object_id := actor_object_id n;
       verb := verb n; description := description n;
       target_content_type := target_content_type n;
       target_object_id := pk;
       action_object_content_type := action_object_content_type n;
       action_object_object_id := action_object_object_id n;
       timestamp := timestamp n; public := public n;
       custom_str_format := custom_str_format n;
       data := data n; custom_ctx := custom_ctx n |}
  else if String.eqb opt "action_object" then
    {| level := level n; recipient_id := recipient_id n; unread := unread n;
       actor_content_type := actor_content_type n;
       actor_object_id := actor_object_id n;
       verb := verb n; description := description n;
       target_content_type := target_content_type n;
       target_object_id := target_object_id n;
       action_object_content_type := action_object_content_type n;
       action_object_object_id := pk;
       timestamp := timestamp n; public := public n;
       custom_str_format := custom_str_format n;
       data := data n; custom_ctx := custom_ctx n |}
  else n.

(** [setattr(n, '%s_content_type' % opt, ct)] *)
Definition setattr_content_type (opt : string) (ct : ContentType) (n : t)
  : t :=
  if String.eqb opt "target" then
    {| level := level n; recipient_id := recipient_id n; unread := unread n;
       actor_content_type := actor_content_type n;
       actor_object_id := actor_object_id n;
       verb := verb n; description := description n;
       target_content_type := Some ct;
       target_object_id := target_object_id n;
       action_object_content_type := action_object_content_type n;
       action_object_object_id := action_object_object_id n;
       timestamp := timestamp n; public := public n;
       custom_str_format := custom_str_format n;
       data := data n; custom_ctx := custom_ctx n |}
  else if String.eqb opt "action_object" then
    {| level := level n; recipient_id := recipient_id n; unread := unread n;
       actor_content_type := actor_content_type n;
       actor_object_id := actor_object_id n;
       verb := verb n; description := description n;
       target_content_type := target_content_type n;
       target_object_id := target_object_id n;
       action_object_content_type := Some ct;
       action_object_object_id := action_object_object_id n;
       timestamp := timestamp n; public := public n;
       custom_str_format := custom_str_format n;
       data := data n; custom_ctx := custom_ctx n |}
  else n.

End Instance.

(** The timestamp column takes a datetime and nothing else here. *)
Definition to_datetime (v : Value) : result Z :=
  match v with
  | VTime t => Ok t
  | _ => Raise (ValidationError "timestamp")
  end.

(** What a JSON column can serialise: the built-in values and
    dictionaries of them, not a model instance. *)
Fixpoint storable (v : Value) : bool :=
  match v with
  | VObj _ _ _ _ => false
  | VDict d =>
      (fix all (l : list (string * Value)) : bool :=
         match l with
         | [] => true
         | (_, x) :: l' => storable x && all l'
         end) d
  | _ => true
  end.

Definition serialise (column : string) (ok : bool) : result unit :=
  if ok then Ok tt
  else Raise (TypeError (column +:+ " is not JSON serializable")).

(** A column declared without [null=True] *)
Definition not_null (column : string) (k : option Z) : result Z :=
  match k with
  | Some z => Ok z
  | None => Raise (IntegrityError column)
  end.

(** The row an instance is stored as, once its two keys and its
    timestamp are known. *)
Definition as_row (r a ts : Z) (self : Instance.t) : Notification :=
  {| id := None; level := Instance.level self; recipient := r;
     unread := Instance.unread self;
     actor_content_type := Instance.actor_content_type self;
     actor_object_id := a;
     verb := Instance.verb self;
     description := Instance.description self;
     target_content_type := Instance.target_content_type self;
     target_object_id := Instance.target_object_id self;
     action_object_content_type := Instance.action_object_content_type self;
     action_object_object_id := Instance.action_object_object_id self;
     timestamp := ts; public := Instance.public self;
     custom_str_format := Instance.custom_str_format self;
     data := Instance.data self;
     custom_ctx := Instance.custom_ctx self |}.

(** [newnotify.save()], line 205.  The values are prepared column by
    column, which stops at a timestamp that is no datetime and at a
    [data] or [custom_ctx] the JSON column cannot serialise; then the row
    is inserted, which the database refuses when [recipient_id] or
    [actor_object_id] is null.  The columns of [target] and
    [action_object] are nullable, each on its own. *)
Definition save_new (self : Instance.t) (t : Table)
  : result (Notification * Table) :=
  ts ← to_datetime (Instance.timestamp self);
  _ ← serialise "data"
        (forallb (λ kv, storable kv.2)
           (map_to_list (default ∅ (Instance.data self))));
  _ ← serialise "custom_ctx" (storable (Instance.custom_ctx self));
  r ← not_null "recipient_id" (Instance.recipient_id self);
  a ← not_null "actor_object_id" (Instance.actor_object_id self);
  Ok (save (as_row r a ts self) t).

(** ** NotificationQuerySet *)

(** A queryset is a lazy conjunction of conditions, evaluated against the
    table each time it is read or updated.  A condition on the columns of
    the row itself is a [row_where]; a condition that goes through a
    relation or a subquery ([recipient__notifications__level='error'])
    also reads the other rows of the table: [table_where].  The rows of
    other tables do not change under the operations of this module, so a
    condition on them is a fixed predicate of the row. *)
Inductive Lookup : Type :=
| unread_is (b : bool)
| recipient_is (u : User)
| row_where (p : Notification -> bool)
| table_where (p : Table -> Notification -> bool).

Definition QuerySet : Type := list Lookup.

Definition holds (t : Table) (n : Notification) (l : Lookup) : bool :=
  match l with
  | unread_is b => Bool.eqb (unread n) b
  | recipient_is u => Z.eqb (recipient n) (user_pk u)
  | row_where p => p n
  | table_where p => p t n
  end.

(** Whether the row [n] is in the queryset when the table is [t]. *)
Definition matches (t : Table) (qs : QuerySet) (n : Notification) : bool :=
  forallb (holds t n) qs.

(** [qs.filter(...)] *)
Definition filter_ (l : Lookup) (qs : QuerySet) : QuerySet := qs ++ [l].

(** [qs.update(unread=b)]: one statement, its conditions evaluated on the
    table as it is before the statement. *)
Definition update (qs : QuerySet) (b : bool) (t : Table) : Table :=
  (λ n, if matches t qs n then set_unread b n else n) <$> t.

(** [Meta.ordering = ('-timestamp',)] *)
Definition newest_first (a b : Notification) : Prop :=
  timestamp b ≤ timestamp a.

#[global] Instance newest_first_dec a b : Decision (newest_first a b) :=
  Z_le_dec (timestamp b) (timestamp a).

(** Reading a queryset: the matching rows in the default ordering. *)
Definition fetch (qs : QuerySet) (t : Table) : list Notification :=
  merge_sort newest_first
    (List.filter (matches t qs) (snd <$> map_to_list t)).

Module NotificationQuerySet.

Definition unread (self : QuerySet) : QuerySet :=
  filter_ (unread_is true) self.

Definition read (self : QuerySet) : QuerySet :=
  filter_ (unread_is false) self.

(** [if recipient:] holds for a user instance and fails for [None]. *)
Definition mark_all_as_read (self : QuerySet) (recipient : option User)
  (t : Table) : Table :=
  let qs := unread self in
  let qs := match recipient with
            | Some r => filter_ (recipient_is r) qs
            | None => qs
            end in
  update qs false t.

Definition mark_all_as_unread (self : QuerySet) (recipient : option User)
  (t : Table) : Table :=
  let qs := read self in
  let qs := match recipient with
            | Some r => filter_ (recipient_is r) qs
            | None => qs
            end in
  update qs true t.

End NotificationQuerySet.

(** [Notification.mark_as_read] *)
Definition mark_as_read (self : Notification) (t : Table)
  : Notification * Table :=
  if unread self then save (set_unread false self) t else (self, t).

(** ** String interpolation: [fmt % mapping] *)

(** The key of a [%(key)s] directive is read one character at a time. *)
Fixpoint snoc (k : string) (c : ascii) : string :=
  match k with
  | EmptyString => String c EmptyString
  | String a k' => String a (snoc k' c)
  end.

Inductive FmtState : Type :=
| Text
| Percent
| Key (depth : nat) (k : string)
| Conv (v : Value).

Section Deployment.

(** [EXTRA_DATA]: the module constant of lines 155-173, true exactly when
    the setting [NOTIFY_USE_JSONFIELD] is on (and a JSON field could be
    imported, otherwise the module does not load). *)
Variable EXTRA_DATA : bool.

(** [settings.AUTH_USER_MODEL]: the label of the user model. *)
Variable AUTH_USER_MODEL : string.

(** [unicode()] of the values whose text form is not modelled here
    (datetimes and dictionaries). *)
Variable repr_ : Value -> string.

(** [django.utils.timesince.timesince(d, now)] *)
Variable timesince_ : Z -> option Z -> string.

(** [ContentType.get_object_for_this_type(pk=...)]: the row of another
    table, [None] when it does not exist. *)
Variable get_object_for_this_type : ContentType -> Z -> option Value.

Definition unicode (v : Value) : string :=
  match v with
  | VStr s => s
  | VObj _ _ repr _ => repr
  | VNone => "None"
  | VBool true => "True"
  | VBool false => "False"
  | VInt z => pretty z
  | VTime _ | VDict _ => repr_ v
  end.

(** The [%(key)s] and [%%] directives; any other directive is reported
    as [FormatNotModelled]. *)
Fixpoint interp (st : FmtState) (fmt : string) (ctx : gmap string Value)
  : result string :=
  match fmt with
  | EmptyString =>
      match st with
      | Text => Ok ""
      | Key _ _ => Raise (ValueError "incomplete format key")
      | _ => Raise (ValueError "incomplete format")
      end
  | String c rest =>
      match st with
      | Text =>
          if Ascii.eqb c "%"%char then interp Percent rest ctx
          else s ← interp Text rest ctx; Ok (String c s)
      | Percent =>
          if Ascii.eqb c "("%char then interp (Key 0 "") rest ctx
          else if Ascii.eqb c "%"%char then
            s ← interp Text rest ctx; Ok (String "%"%char s)
          else Raise (FormatNotModelled (String c ""))
      | Key depth k =>
          if Ascii.eqb c ")"%char then
            match depth with
            | O =>
                match ctx !! k with
                | Some v => interp (Conv v) rest ctx
                | None => Raise (KeyError k)
                end
            | S d => interp (Key d (snoc k c)) rest ctx
            end
          else if Ascii.eqb c "("%char then
            interp (Key (S depth) (snoc k c)) rest ctx
          else interp (Key depth (snoc k c)) rest ctx
      | Conv v =>
          if Ascii.eqb c "s"%char then
            s ← interp Text rest ctx; Ok (unicode v +:+ s)
          else Raise (FormatNotModelled (String c ""))
      end
  end.

Definition interpolate (fmt : string) (ctx : gmap string Value)
  : result string := interp Text fmt ctx.

(** ** Notification: generic relations and rendering *)

(** [GenericForeignKey.__get__]: [None] without a content type or when
    the referenced row is gone. *)
Definition generic (ct : option ContentType) (oid : option Z) : Value :=
  match ct, oid with
  | Some c, Some k => default VNone (get_object_for_this_type c k)
  | _, _ => VNone
  end.

Definition actor (self : Notification) : Value :=
  generic (Some (actor_content_type self)) (Some (actor_object_id self)).

Definition target (self : Notification) : Value :=
  generic (target_content_type self) (target_object_id self).

Definition action_object (self : Notification) : Value :=
  generic (action_object_content_type self) (action_object_object_id self).

Definition timesince (self : Notification) (now : option Z) : string :=
  timesince_ (timestamp self) now.

(** One round of the loop of lines 125-127. *)
Definition bypass_key (d : list (string * Value))
  (acc : result (gmap string Value)) (c : string)
  : result (gmap string Value) :=
  ctx ← acc;
  match ctx !! c with
  | Some v =>
      match assoc c d with
      | Some (VStr a) => x ← getattr v a; Ok (<[c := x]> ctx)
      | Some _ => Raise (TypeError "getattr(): attribute name must be string")
      | None => Raise (KeyError c)
      end
  | None => Ok ctx
  end.

(** Lines 124-127.  Iterating a string yields one-character keys, none
    of which is a key of [ctx]; the other non-dictionary values cannot be
    iterated. *)
Definition apply_custom_ctx (cc : Value) (ctx : gmap string Value)
  : result (gmap string Value) :=
  if truthy cc then
    match cc with
    | VDict d => foldl (bypass_key d) (Ok ctx) (fst <$> d)
    | VStr _ => Ok ctx
    | _ => Raise (TypeError "object is not iterable")
    end
  else Ok ctx.

(** [self.custom_ctx]: the attribute exists only on the class that got
    the JSON columns. *)
Definition read_custom_ctx (self : Notification) : result Value :=
  if EXTRA_DATA then Ok (custom_ctx self)
  else Raise (AttributeError "custom_ctx").

Definition context (self : Notification) : gmap string Value :=
  <["actor" := actor self]>
  (<["verb" := VStr (verb self)]>
  (<["action_object" := action_object self]>
  (<["target" := target self]>
  (<["timesince" := VStr (timesince self None)]> ∅)))).

Definition __unicode__ (self : Notification) : result string :=
  let ctx := context self in
  cc ← read_custom_ctx self;
  ctx ← apply_custom_ctx cc ctx;
  if truthy (custom_str_format self) then
    match custom_str_format self with
    | VStr fmt => interpolate fmt ctx
    | _ => Raise (TypeError "unsupported operand type(s) for %")
    end
  else if truthy (target self) then
    if truthy (action_object self) then
      interpolate
        "%(actor)s %(verb)s %(action_object)s on %(target)s %(timesince)s ago"
        ctx
    else
      interpolate "%(actor)s %(verb)s %(target)s %(timesince)s ago" ctx
  else if truthy (action_object self) then
    interpolate "%(actor)s %(verb)s %(action_object)s %(timesince)s ago" ctx
  else
    interpolate "%(actor)s %(verb)s %(timesince)s ago" ctx.

(** ** The signal handler *)

(** The columns of the model class: those of the class body and, with
    [EXTRA_DATA], the two contributed JSON columns. *)
Definition columns : list string :=
  ["id"; "level"; "recipient"; "unread"; "actor_content_type";
   "actor_object_id"; "verb"; "description"; "target_content_type";
   "target_object_id"; "action_object_content_type";
   "action_object_object_id"; "timestamp"; "public"; "custom_str_format"]
  ++ (if EXTRA_DATA then ["data"; "custom_ctx"] else []).

(** [Model.__init__] rejects a keyword that names no column. *)
Definition check_keywords (names : list string) : result unit :=
  match List.filter (λ k, negb (bool_decide (k ∈ columns))) names with
  | [] => Ok tt
  | k :: _ =>
      Raise (TypeError
               ("'" +:+ k +:+ "' is an invalid keyword argument for this function"))
  end.

(** The foreign key accepts an instance of the user model only, and
    keeps its key: [None] for a user that was never saved. *)
Definition user_key (v : Value) : result (option Z) :=
  match v with
  | VObj model pk _ _ =>
      if String.eqb model AUTH_USER_MODEL then Ok pk
      else Raise (ValueError "Notification.recipient must be a user instance")
  | _ => Raise (ValueError "Notification.recipient must be a user instance")
  end.

(** [Notification(recipient=..., ..., custom_str_format=...)] as called on
    lines 186-196; the columns not named take their defaults. *)
Definition Notification_init (recipient : Value)
  (actor_content_type : ContentType) (actor_object_id : option Z)
  (verb : string) (public : bool)
  (description timestamp custom_ctx custom_str_format : Value)
  : result Instance.t :=
  r ← user_key recipient;
  _ ← check_keywords
        ["recipient"; "actor_content_type"; "actor_object_id"; "verb";
         "public"; "description"; "timestamp"; "custom_ctx";
         "custom_str_format"];
  Ok {| Instance.level := "info"; Instance.recipient_id := r;
        Instance.unread := true;
        Instance.actor_content_type := actor_content_type;
        Instance.actor_object_id := actor_object_id;
        Instance.verb := verb; Instance.description := description;
        Instance.target_content_type := None;
        Instance.target_object_id := None;
        Instance.action_object_content_type := None;
        Instance.action_object_object_id := None;
        Instance.timestamp := timestamp; Instance.public := public;
        Instance.custom_str_format := custom_str_format;
        Instance.data := None; Instance.custom_ctx := custom_ctx |}.

(** One round of the loop of lines 197-202: the test is [obj is None]
    and nothing else, so the key of an unsaved object is assigned as it
    is. *)
Definition set_generic (acc : result (Instance.t * kwargs_t))
  (opt : string) : result (Instance.t * kwargs_t) :=
  '(newnotify, kwargs) ← acc;
  let '(obj, kwargs) := pop_default opt VNone kwargs in
  match obj with
  | VNone => Ok (newnotify, kwargs)
  | _ =>
      pk ← pk_of obj;
      let newnotify := Instance.setattr_object_id opt pk newnotify in
      ct ← get_for_model obj;
      Ok (Instance.setattr_content_type opt ct newnotify, kwargs)
  end.

(** Lines 181-204: the instance as it stands when [save] is called.
    [now] is the reading of the clock. *)
Definition newnotify (now : Z) (verb : Value) (kwargs : kwargs_t)
  : result Instance.t :=
  let '(_, kwargs) := pop_default "signal" VNone kwargs in
  '(recipient, kwargs) ← pop "recipient" kwargs;
  '(actor, kwargs) ← pop "sender" kwargs;
  let '(custom_ctx, kwargs) := pop_default "custom_ctx" VNone kwargs in
  let '(custom_str_format, kwargs) :=
    pop_default "custom_str_format" VNone kwargs in
  actor_content_type ← get_for_model actor;
  actor_object_id ← pk_of actor;
  let verb := unicode verb in
  let '(public, kwargs) := pop_default "public" (VBool true) kwargs in
  let '(description, kwargs) := pop_default "description" VNone kwargs in
  let '(timestamp, kwargs) := pop_default "timestamp" (VTime now) kwargs in
  newnotify ← Notification_init recipient actor_content_type
                actor_object_id verb (truthy public) description timestamp
                custom_ctx custom_str_format;
  '(newnotify, kwargs) ←
    foldl set_generic (Ok (newnotify, kwargs)) ["target"; "action_object"];
  if nonempty kwargs && EXTRA_DATA then Ok (Instance.set_data kwargs newnotify)
  else Ok newnotify.

(** [notify_handler]: builds the instance and saves it.  The Python
    function returns nothing; the model returns the saved instance next
    to the new table. *)
Definition notify_handler (now : Z) (verb : Value) (kwargs : kwargs_t)
  (t : Table) : result (Notification * Table) :=
  n ← newnotify now verb kwargs;
  save_new n t.

(** The dispatcher calls a receiver with keywords only,
    [receiver(signal=..., sender=..., **named)]: Python binds the
    parameter [verb] of [notify_handler(verb, **kwargs)] from them, and the
    call fails when there is none. *)
Definition receive (now : Z) (named : kwargs_t) (t : Table)
  : result (Notification * Table) :=
  match named !! "verb" with
  | Some verb => notify_handler now verb (delete "verb" named) t
  | None =>
      Raise (TypeError "notify_handler() takes exactly 1 argument (0 given)")
  end.

(** ** The operations of the module on the table *)

Inductive Op : Type :=
| op_notify (now : Z) (verb : Value) (kwargs : kwargs_t)
| op_mark_as_read (self : Notification)
| op_mark_all_as_read (scope : QuerySet) (recipient : option User)
| op_mark_all_as_unread (scope : QuerySet) (recipient : option User)
| op_unread (scope : QuerySet)
| op_read (scope : QuerySet)
| op_unicode (self : Notification)
| op_timesince (self : Notification) (now : option Z).

(** The table after an operation; an operation that raises leaves it as
    it was. *)
Definition run (op : Op) (t : Table) : Table :=
  match op with
  | op_notify now verb kwargs =>
      match notify_handler now verb kwargs t with
      | Ok (_, t') => t'
      | Raise _ => t
      end
  | op_mark_as_read self => snd (mark_as_read self t)
  | op_mark_all_as_read scope recipient =>
      NotificationQuerySet.mark_all_as_read scope recipient t
  | op_mark_all_as_unread scope recipient =>
      NotificationQuerySet.mark_all_as_unread scope recipient t
  | op_unread _ | op_read _ | op_unicode _ | op_timesince _ _ => t
  end.

Definition marks_read (op : Op) : Prop :=
  match op with
  | op_mark_as_read _ | op_mark_all_as_read _ _ => True
  | _ => False
  end.

End Deployment.

(** ** Vocabulary of the properties *)

(** The payload keys the handler takes out of [kwargs], in the order it
    takes them. *)
Definition recognized : list string :=
  ["signal"; "recipient"; "sender"; "custom_ctx"; "custom_str_format";
   "public"; "description"; "timestamp"; "target"; "action_object"].

(** What is left of [kwargs] on line 203. *)
Definition extras (kwargs : kwargs_t) : kwargs_t :=
  delete "action_object" (delete "target" (delete "timestamp"
    (delete "description" (delete "public" (delete "custom_str_format"
      (delete "custom_ctx" (delete "sender" (delete "recipient"
        (delete "signal" kwargs))))))))).

(** The two halves of a generic relation are set together. *)
Definition paired {A B : Type} (a : option A) (b : option B) : Prop :=
  (a = None ∧ b = None) ∨ (is_Some a ∧ is_Some b).

Definition configuration_error (e : Exn) : Prop :=
  match e with
  | ImproperlyConfigured _ => True
  | _ => False
  end.

(** The text a [%(key)s] directive contributes. *)
Definition slot (repr_ : Value → string) (ctx : gmap string Value)
  (key : string) : string :=
  unicode repr_ (default VNone (ctx !! key)).

Definition has_slots (ctx : gmap string Value) : Prop :=
  ∀ key, key ∈ ["actor"; "verb"; "action_object"; "target"; "timesince"] →
         is_Some (ctx !! key).

(** The queryset a bulk operation updates: the scope, the rows whose flag
    is [b], and the rows of the recipient when one is given. *)
Definition bulk (scope : QuerySet) (b : bool) (r : option User) : QuerySet :=
  match r with
  | Some R => filter_ (recipient_is R) (filter_ (unread_is b) scope)
  | None => filter_ (unread_is b) scope
  end.

(** Two tables that differ at most in the [unread] flags of their rows. *)
Definition same_but_flags (t t' : Table) : Prop :=
  set_unread true <$> t = set_unread true <$> t'.

(** A scope whose conditions do not read the [unread] flag of the other
    rows of the table; they may read that of the row itself.  Every
    scope made of conditions on the row's own columns is one. *)
Definition flag_local (scope : QuerySet) : Prop :=
  ∀ t t' n, same_but_flags t t' → matches t scope n = matches t' scope n.

(** A scope whose conditions do not read the [unread] column at all. *)
Definition flag_independent (scope : QuerySet) : Prop :=
  ∀ t t' n b,
    same_but_flags t t' → matches t scope (set_unread b n) = matches t' scope n.

(** The optional recipient of the bulk operations, as a row condition. *)
Definition addressed_to (r : option User) (n : Notification) : Prop :=
  ∀ R, r = Some R → recipient n = user_pk R.

(** The two halves a payload value gives a generic relation. *)
Definition generic_type (v : Value) : option ContentType :=
  match v with
  | VObj model _ _ _ => Some model
  | _ => None
  end.

Definition generic_id (v : Value) : option Z :=
  match v with
  | VObj _ pk _ _ => pk
  | _ => None
  end.

(** A model instance that was never saved. *)
Definition unsaved (v : Value) : bool :=
  match v with
  | VObj _ None _ _ => true
  | _ => false
  end.

(** A payload value a generic relation can take: nothing or a model
    instance. *)
Definition relatable (v : option Value) : Prop :=
  match v with
  | None | Some VNone | Some (VObj _ _ _ _) => True
  | Some _ => False
  end.

(** Reading a key of the stored [data]; nothing is read when no [data]
    was stored. *)
Definition data_lookup (n : Notification) (key : string) : option Value :=
  d ← data n; d !! key.

(** A resolver that finds the object [v] under its own type and key. *)
Definition resolves (get_object_for_this_type : ContentType → Z → option Value)
  (v : Value) : Prop :=
  match v with
  | VObj model (Some pk) _ _ => get_object_for_this_type model pk = Some v
  | VObj _ None _ _ => False
  | _ => True
  end.

(** ** Loading the module (lines 155-173) *)

(** What the import of the module reads: the setting
    [NOTIFY_USE_JSONFIELD] (absent by default), whether [DATABASES] has a
    [mongodb] entry, and which of the two field packages can be
    imported. *)
Record Environment := {
  NOTIFY_USE_JSONFIELD : option Value;
  mongodb_in_DATABASES : bool;
  has_djangotoolbox : bool;
  has_jsonfield : bool
}.

(** The value [EXTRA_DATA] ends up with, or the error that stops the
    import. *)
Definition load_EXTRA_DATA (env : Environment) : result bool :=
  if truthy (default (VBool false) (NOTIFY_USE_JSONFIELD env)) then
    if mongodb_in_DATABASES env then
      if has_djangotoolbox env then Ok true
      else Raise (ImproperlyConfigured
                    "You must have a suitable JSONField installed")
    else
      if has_jsonfield env then Ok true
      else Raise (ImproperlyConfigured
                    "You must have a suitable JSONField installed")
  else Ok false.

(** Text without the character that starts a directive, and keys without
    parentheses. *)
Fixpoint lacks (c : ascii) (s : string) : bool :=
  match s with
  | EmptyString => true
  | String a s' => negb (Ascii.eqb a c) && lacks c s'
  end.

(** ** Sample data *)

Module Sample.

Definition repr_ (v : Value) : string := "<value>".
Definition timesince_ (d : Z) (now : option Z) : string := "2 hours".

Definition alice : Value :=
  VObj "auth.user" (Some 1) "alice" [("username", VStr "alice")].
Definition bob : Value := VObj "auth.user" (Some 2) "bob" [].
Definition repo : Value :=
  VObj "code.repo" (Some 7) "pinax/pinax" [("name", VStr "pinax")].
Definition issue : Value := VObj "code.issue" (Some 70) "issue 70" [].

Definition objects (ct : ContentType) (k : Z) : option Value :=
  if String.eqb ct "auth.user" then
    if Z.eqb k 1 then Some alice else if Z.eqb k 2 then Some bob else None
  else if String.eqb ct "code.repo" then
    if Z.eqb k 7 then Some repo else None
  else if String.eqb ct "code.issue" then
    if Z.eqb k 70 then Some issue else None
  else None.

Definition bob_user : User := {| user_pk := 2; username := "bob" |}.

(** [notify.send(alice, recipient=bob, verb=..., target=repo, foo=3)] as
    the receiver gets it, the verb apart. *)
Definition kwargs : kwargs_t :=
  <["signal" := VStr "notify"]> (<["recipient" := bob]>
    (<["sender" := alice]> (<["target" := repo]> (<["foo" := VInt 3]> ∅)))).

Definition kwargs_plain : kwargs_t :=
  <["signal" := VStr "notify"]> (<["recipient" := bob]>
    (<["sender" := alice]> ∅)).

Definition named_without_verb : kwargs_t := kwargs.
Definition named_without_recipient : kwargs_t :=
  <["verb" := VStr "liked"]> (<["sender" := alice]> ∅).
Definition named_without_sender : kwargs_t :=
  <["verb" := VStr "liked"]> (<["recipient" := bob]> ∅).

Definition note (k recipient_ : Z) (unread_ : bool) (verb_ : string)
  (target_ action_ : option (ContentType * Z)) (ts : Z) (fmt : Value)
  : Notification :=
  {| id := Some k; level := "info"; recipient := recipient_;
     unread := unread_;
     actor_content_type := "auth.user"; actor_object_id := 1;
     verb := verb_; description := VNone;
     target_content_type := fst <$> target_;
     target_object_id := snd <$> target_;
     action_object_content_type := fst <$> action_;
     action_object_object_id := snd <$> action_;
     timestamp := ts; public := true; custom_str_format := fmt;
     data := None; custom_ctx := VNone |}.

Definition commented : Notification :=
  note 1 2 true "commented on" (Some ("code.repo", 7)) None 100 VNone.
Definition liked : Notification :=
  note 2 2 true "liked" (Some ("code.repo", 7)) None 100 VNone.
Definition closed : Notification :=
  note 3 3 true "closed" (Some ("code.repo", 7)) (Some ("code.issue", 70))
    100 VNone.
Definition formatted : Notification :=
  note 4 2 true "closed" (Some ("code.repo", 7)) None 100
    (VStr "%(actor)s did %(verb)s").

(** Two rows for user 2, one for user 3. *)
Definition inbox : Table :=
  <[1 := commented]> (<[2 := liked]> (<[3 := closed]> ∅)).

(** Three rows, two of them with the same timestamp. *)
Definition timeline : Table :=
  <[1 := note 1 2 true "liked" None None 100 VNone]>
  (<[2 := note 2 2 true "liked" None None 200 VNone]>
  (<[3 := note 3 2 false "liked" None None 200 VNone]> ∅)).

(** A payload whose target is a string. *)
Definition kwargs_bad_target : kwargs_t :=
  <["target" := VStr "pinax/pinax"]> kwargs_plain.

(** A format with a key the context does not have. *)
Definition unknown_key : Notification :=
  note 5 2 true "liked" None None 100 (VStr "%(foo)s").

(** [custom_ctx = {'target': 'name'}] *)
Definition by_name : Value := VDict [("target", VStr "name")].

(** A repository object that was built and never saved, and a payload
    with it as target. *)
Definition draft : Value := VObj "code.repo" None "pinax/new" [].

Definition kwargs_draft_target : kwargs_t :=
  <["target" := draft]> kwargs_plain.

(** The scope
    [Q(level='error') | Q(recipient__notifications__level='error',
                          recipient__notifications__unread=False)]:
    the notifications at level error, and those of a recipient who has a
    read notification at level error. *)
Definition error_or_seen_error : Lookup :=
  table_where (λ t n,
    String.eqb (level n) "error" ||
    existsb (λ m, Z.eqb (recipient m) (recipient n) &&
                  String.eqb (level m) "error" && negb (unread m))
            (snd <$> map_to_list t)).

(** A scope on the row's own columns: [filter(level='info')]. *)
Definition level_info : Lookup :=
  row_where (λ n, String.eqb (level n) "info").

Definition at_level (l : string) (n : Notification) : Notification :=
  {| id := id n; level := l; recipient := recipient n; unread := unread n;
     actor_content_type := actor_content_type n;
     actor_object_id := actor_object_id n;
     verb := verb n; description := description n;
     target_content_type := target_content_type n;
     target_object_id := target_object_id n;
     action_object_content_type := action_object_content_type n;
     action_object_object_id := action_object_object_id n;
     timestamp := timestamp n; public := public n;
     custom_str_format := custom_str_format n;
     data := data n; custom_ctx := custom_ctx n |}.

(** Two unread notifications of user 2: the first at level error, the
    second at level info. *)
Definition failed : Notification :=
  at_level "error" (note 1 2 true "failed" None None 100 VNone).
Definition passed : Notification :=
  note 2 2 true "passed" None None 200 VNone.

Definition builds : Table := <[1 := failed]> (<[2 := passed]> ∅).

End Sample.

(** ** Properties of the queryset *)

Lemma matches_filter t qs l n :
  matches t (filter_ l qs) n = matches t qs n && holds t n l.
Proof.
  unfold matches, filter_. rewrite forallb_app. simpl. by rewrite andb_true_r.
Qed.

Lemma matches_after_update t qs b n :
  matches t (filter_ (unread_is (negb b)) qs) (set_unread b n) = false.
Proof.
  rewrite matches_filter. simpl. destruct b; simpl; apply andb_false_r.
Qed.

Lemma update_lookup qs b (t : Table) k :
  update qs b t !! k =
  (λ n, if matches t qs n then set_unread b n else n) <$> (t !! k).
Proof. unfold update. apply lookup_fmap. Qed.

(** An update changes flags and nothing else. *)
Lemma update_same_but_flags qs b (t : Table) :
  same_but_flags (update qs b t) t.
Proof.
  unfold same_but_flags, update. rewrite <- map_fmap_compose.
  apply map_fmap_ext. intros k n _. simpl. by destruct (matches t qs n).
Qed.

Lemma bulk_after_update t scope b r n :
  matches t (bulk scope (negb b) r) (set_unread b n) = false.
Proof.
  unfold bulk. destruct r as [R|].
  - by rewrite matches_filter, matches_after_update.
  - apply matches_after_update.
Qed.

Lemma bulk_flag_local scope b r :
  flag_local scope → flag_local (bulk scope b r).
Proof.
  intros Hl t t' n Ht. unfold bulk.
  destruct r as [R|]; rewrite !matches_filter; simpl; by rewrite (Hl t t' n Ht).
Qed.

(** A second update with the same queryset changes nothing, when the
    rows the first one changed have left the queryset and no other row
    has entered it. *)
Lemma update_twice qs b (t : Table) :
  (∀ t' n, matches t' qs (set_unread b n) = false) →
  (∀ n, matches (update qs b t) qs n = matches t qs n) →
  update qs b (update qs b t) = update qs b t.
Proof.
  intros Hout Hsame. apply map_eq; intros k. rewrite !update_lookup.
  destruct (t !! k) as [n|]; simpl; [|done]. f_equal.
  destruct (matches t qs n) eqn:Hm.
  - by rewrite Hout.
  - by rewrite Hsame, Hm.
Qed.

(** C2, as the code has it.  On a scope whose conditions do not read the
    [unread] flag of other rows, marking the scope as read a second time,
    with the same optional recipient, leaves the table exactly as the
    first call left it. *)
Theorem mark_all_as_read_idempotent
  (scope : QuerySet) (recipient : option User) (t : Table) :
  flag_local scope →
  NotificationQuerySet.mark_all_as_read scope recipient
    (NotificationQuerySet.mark_all_as_read scope recipient t)
  = NotificationQuerySet.mark_all_as_read scope recipient t.
Proof.
  intros Hl.
  change (update (bulk scope true recipient) false
            (update (bulk scope true recipient) false t)
          = update (bulk scope true recipient) false t).
  apply update_twice.
  - intros t' n. apply (bulk_after_update t' scope false).
  - intros n. apply bulk_flag_local; [done|]. apply update_same_but_flags.
Qed.

(** C5.  [mark_all_as_read(recipient=R)] leaves every row of another
    recipient as it was, whatever the scope: an unread row of another
    recipient stays unread. *)
Theorem mark_all_as_read_other_recipients
  (scope : QuerySet) (R : User) (t : Table) (k : Z) (n : Notification) :
  t !! k = Some n →
  recipient n ≠ user_pk R →
  NotificationQuerySet.mark_all_as_read scope (Some R) t !! k = Some n.
Proof.
  intros Hk Hne. unfold NotificationQuerySet.mark_all_as_read.
  rewrite update_lookup, Hk. simpl. f_equal.
  rewrite matches_filter. simpl.
  destruct (Z.eqb_spec (recipient n) (user_pk R)); [done|].
  by rewrite andb_false_r.
Qed.

#[global] Instance newest_first_total : Total newest_first.
Proof. intros a b. unfold newest_first. lia. Qed.

Lemma fetch_rows (qs : QuerySet) (t : Table) :
  fetch qs t ≡ₚ List.filter (matches t qs) (snd <$> map_to_list t).
Proof. unfold fetch. apply merge_sort_Permutation. Qed.

Lemma sorted_consecutive (l : list Notification) (i : nat) (a b : Notification) :
  Sorted newest_first l →
  l !! i = Some a → l !! S i = Some b → timestamp b ≤ timestamp a.
Proof.
  intros Hs. revert i. induction Hs as [|x l Hs IH Hhd]; intros i Ha Hb.
  - done.
  - destruct i as [|i]; simpl in *.
    + simplify_eq. destruct Hhd as [|y l' Hxy]; simplify_eq/=. done.
    + eauto.
Qed.

(** C9, as the code has it.  In the default ordering the timestamps of
    two consecutive notifications never increase; they may be equal. *)
Theorem default_ordering_descending
  (qs : QuerySet) (t : Table) (i : nat) (a b : Notification) :
  fetch qs t !! i = Some a →
  fetch qs t !! S i = Some b →
  timestamp b ≤ timestamp a.
Proof.
  apply sorted_consecutive. unfold fetch. apply (Sorted_merge_sort newest_first).
Qed.

(** ** Properties of the signal handler *)

Lemma pop_default_eq key d (kwargs : kwargs_t) :
  pop_default key d kwargs = (default d (kwargs !! key), delete key kwargs).
Proof.
  unfold pop_default. destruct (kwargs !! key) eqn:H; simpl; [done|].
  by rewrite delete_id.
Qed.

Lemma pop_Ok key (kwargs : kwargs_t) v m :
  pop key kwargs = Ok (v, m) → kwargs !! key = Some v ∧ m = delete key kwargs.
Proof. unfold pop. destruct (kwargs !! key); naive_solver. Qed.

Lemma extras_lookup_recognized kwargs key :
  key ∈ recognized → extras kwargs !! key = None.
Proof.
  intros Hin. unfold extras, recognized in *.
  repeat (apply elem_of_cons in Hin as [->|Hin]; [by simplify_map_eq|]).
  by apply elem_of_nil in Hin.
Qed.

Lemma extras_lookup_other (kwargs : kwargs_t) key :
  key ∉ recognized → extras kwargs !! key = kwargs !! key.
Proof.
  intros Hin. unfold extras, recognized in *.
  rewrite !lookup_delete_ne; [done|..]; intros <-; apply Hin; set_solver.
Qed.

Lemma extras_empty (kwargs : kwargs_t) :
  (∀ key, is_Some (kwargs !! key) → key ∈ recognized) → extras kwargs = ∅.
Proof.
  intros Hall. apply map_eq; intros key. rewrite lookup_empty.
  destruct (decide (key ∈ recognized)) as [Hin|Hout].
  - by apply extras_lookup_recognized.
  - rewrite extras_lookup_other by done.
    destruct (kwargs !! key) eqn:Hk; [|done].
    destruct Hout. apply Hall. by rewrite Hk.
Qed.

Lemma save_fresh n (t : Table) :
  id n = None →
  ∃ k, t !! k = None ∧ save n t = (set_id k n, <[k := set_id k n]> t).
Proof.
  intros Hid. unfold save. rewrite Hid. exists (fresh (dom t)). split; [|done].
  apply not_elem_of_dom. apply is_fresh.
Qed.

(** What a successful first save found in the instance, and the row it
    wrote. *)
Lemma save_new_inv (self : Instance.t) (t : Table) n t' :
  save_new self t = Ok (n, t') →
  ∃ k r a ts,
    Instance.recipient_id self = Some r ∧
    Instance.actor_object_id self = Some a ∧
    Instance.timestamp self = VTime ts ∧
    t !! k = None ∧ n = set_id k (as_row r a ts self) ∧ t' = <[k := n]> t.
Proof.
  unfold save_new, to_datetime, serialise, not_null. intros H.
  destruct (Instance.timestamp self) as [| | | |ts| |]; try discriminate H.
  cbn [mbind result_bind] in H.
  destruct (forallb _ _); [|discriminate H]. cbn [mbind result_bind] in H.
  destruct (storable _); [|discriminate H]. cbn [mbind result_bind] in H.
  destruct (Instance.recipient_id self) as [r|]; [|discriminate H].
  cbn [mbind result_bind] in H.
  destruct (Instance.actor_object_id self) as [a|]; [|discriminate H].
  cbn [mbind result_bind] in H.
  destruct (save_fresh (as_row r a ts self) t eq_refl) as (k & Hk & Hs).
  rewrite Hs in H. injection H as <- <-. exists k, r, a, ts. done.
Qed.

Lemma save_new_Raise (self : Instance.t) (t : Table) e :
  save_new self t = Raise e → ¬ configuration_error e.
Proof.
  unfold save_new, to_datetime, serialise, not_null. intros H.
  destruct (Instance.timestamp self) as [| | | |ts| |];
    try (injection H as <-; intros []).
  cbn [mbind result_bind] in H.
  destruct (forallb _ _); [|injection H as <-; intros []].
  cbn [mbind result_bind] in H.
  destruct (storable _); [|injection H as <-; intros []].
  cbn [mbind result_bind] in H.
  destruct (Instance.recipient_id self) as [r|];
    [|injection H as <-; intros []].
  cbn [mbind result_bind] in H.
  destruct (Instance.actor_object_id self) as [a|];
    [|injection H as <-; intros []].
  discriminate H.
Qed.

Section Handler.
Context (EXTRA_DATA : bool) (AUTH_USER_MODEL : string)
        (repr_ : Value → string).

Local Arguments nonempty : simpl never.
Local Arguments extras : simpl never.

Lemma Notification_init_Raise r act aid v p d ts cc csf e :
  Notification_init EXTRA_DATA AUTH_USER_MODEL r act aid v p d ts cc csf
  = Raise e →
  ¬ configuration_error e.
Proof.
  unfold Notification_init. intros H.
  destruct (user_key _ _) as [k|e1] eqn:Hu; cbn [mbind result_bind] in H.
  - destruct (check_keywords _ _) as [u|e2] eqn:Hc;
      cbn [mbind result_bind] in H; [discriminate H|].
    simplify_eq. unfold check_keywords in Hc.
    destruct (List.filter _ _); simplify_eq. intros [].
  - simplify_eq. unfold user_key in Hu.
    destruct r; try (simplify_eq; intros []).
    destruct (String.eqb _ _); simplify_eq. intros [].
Qed.

Lemma set_generic_Raise acc opt e :
  set_generic acc opt = Raise e →
  acc = Raise e ∨ ¬ configuration_error e.
Proof.
  unfold set_generic. destruct acc as [[n m]|]; simpl; [|naive_solver].
  rewrite pop_default_eq.
  destruct (default VNone (m !! opt)); simpl; intros H; simplify_eq;
    right; intros [].
Qed.

Lemma user_key_Ok v r :
  user_key AUTH_USER_MODEL v = Ok r →
  ∃ s a, v = VObj AUTH_USER_MODEL r s a.
Proof.
  unfold user_key. destruct v as [| | | | | |model pk s a]; try done.
  destruct (String.eqb_spec model AUTH_USER_MODEL); [|done].
  intros [= ->]. subst. eauto.
Qed.

Lemma set_generic_inv opt n m n' m' :
  set_generic (Ok (n, m)) opt = Ok (n', m') →
  m' = delete opt m ∧ relatable (m !! opt) ∧
  n' = match default VNone (m !! opt) with
       | VObj model pk _ _ =>
           Instance.setattr_content_type opt model
             (Instance.setattr_object_id opt pk n)
       | _ => n
       end.
Proof.
  unfold set_generic. simpl. rewrite pop_default_eq.
  destruct (m !! opt) as [v|]; simpl; [|by intros [= <- <-]].
  destruct v; simpl; intros H; by simplify_eq.
Qed.

(** The instance the handler builds, field by field. *)
Lemma newnotify_fields now verb kwargs n :
  newnotify EXTRA_DATA AUTH_USER_MODEL repr_ now verb kwargs = Ok n →
  ∃ rpk rs ra sender,
    kwargs !! "recipient" = Some (VObj AUTH_USER_MODEL rpk rs ra) ∧
    kwargs !! "sender" = Some sender ∧
    is_Some (generic_type sender) ∧
    relatable (kwargs !! "target") ∧
    relatable (kwargs !! "action_object") ∧
    n = {| Instance.level := "info"; Instance.recipient_id := rpk;
           Instance.unread := true;
           Instance.actor_content_type := default "" (generic_type sender);
           Instance.actor_object_id := generic_id sender;
           Instance.verb := unicode repr_ verb;
           Instance.description := default VNone (kwargs !! "description");
           Instance.target_content_type :=
             generic_type (default VNone (kwargs !! "target"));
           Instance.target_object_id :=
             generic_id (default VNone (kwargs !! "target"));
           Instance.action_object_content_type :=
             generic_type (default VNone (kwargs !! "action_object"));
           Instance.action_object_object_id :=
             generic_id (default VNone (kwargs !! "action_object"));
           Instance.timestamp :=
             default (VTime now) (kwargs !! "timestamp");
           Instance.public :=
             truthy (default (VBool true) (kwargs !! "public"));
           Instance.custom_str_format :=
             default VNone (kwargs !! "custom_str_format");
           Instance.data := if nonempty (extras kwargs) && EXTRA_DATA
                            then Some (extras kwargs) else None;
           Instance.custom_ctx :=
             default VNone (kwargs !! "custom_ctx") |}.
Proof.
  unfold newnotify. rewrite ?pop_default_eq.
  destruct (pop "recipient" _) as [[recipient k1]|] eqn:H1;
    cbn [mbind result_bind foldl]; [|done].
  apply pop_Ok in H1 as [Hr ->].
  destruct (pop "sender" _) as [[sender k2]|] eqn:H2;
    cbn [mbind result_bind foldl]; [|done].
  apply pop_Ok in H2 as [Hs ->].
  rewrite ?pop_default_eq.
  destruct (get_for_model sender) as [ct|] eqn:Hct;
    cbn [mbind result_bind foldl]; [|done].
  destruct (pk_of sender) as [pk|] eqn:Hpk; cbn [mbind result_bind foldl];
    [|done].
  rewrite ?pop_default_eq. unfold Notification_init.
  destruct (user_key _ _) as [r|] eqn:Hu; cbn [mbind result_bind foldl];
    [|done].
  destruct (check_keywords _ _) as [[]|]; cbn [mbind result_bind foldl];
    [|done].
  destruct (set_generic (set_generic _ _) _) as [[n2 k4]|] eqn:H4;
    cbn [mbind result_bind foldl]; [|done].
  destruct (set_generic _ "target") as [[n1 k3]|] eqn:H3; [|done].
  apply set_generic_inv in H3 as (-> & Hrt & ->).
  apply set_generic_inv in H4 as (-> & Hra & ->).
  fold (extras kwargs).
  rewrite !lookup_delete_ne in * by done.
  apply user_key_Ok in Hu as (rs & ra & ->).
  destruct sender as [| | | | | |sm spk ss sa]; try discriminate Hct.
  injection Hct as <-. injection Hpk as <-.
  intros Hn. exists r, rs, ra, (VObj sm spk ss sa).
  split; [done|]. split; [done|]. split; [by eexists|].
  split; [done|]. split; [done|].
  destruct (kwargs !! "target") as [[]|]; cbn [relatable] in Hrt;
    try contradiction;
    destruct (kwargs !! "action_object") as [[]|]; cbn [relatable] in Hra;
    try contradiction;
    destruct (nonempty (extras kwargs) && EXTRA_DATA);
    injection Hn as <-; reflexivity.
Qed.

Lemma newnotify_Raise now verb kwargs e :
  newnotify EXTRA_DATA AUTH_USER_MODEL repr_ now verb kwargs = Raise e →
  ¬ configuration_error e.
Proof.
  unfold newnotify. rewrite ?pop_default_eq. unfold pop.
  destruct (delete "signal" kwargs !! "recipient") as [recipient|];
    cbn [mbind result_bind foldl]; [|intros ? ?; by simplify_eq/=].
  destruct (delete "recipient" _ !! "sender") as [sender|];
    cbn [mbind result_bind foldl]; [|intros ? ?; by simplify_eq/=].
  rewrite ?pop_default_eq.
  destruct (get_for_model sender) as [ct|] eqn:Hct;
    cbn [mbind result_bind foldl];
    [|destruct sender; intros ? ?; by simplify_eq/=].
  destruct (pk_of sender) as [pk|] eqn:Hpk; cbn [mbind result_bind foldl];
    [|destruct sender; intros ? ?; by simplify_eq/=].
  rewrite ?pop_default_eq.
  destruct (Notification_init _ _ _ _ _ _ _ _ _ _ _) as [n0|] eqn:H0;
    cbn [mbind result_bind foldl];
    [|intros ?; simplify_eq; by eapply Notification_init_Raise].
  destruct (set_generic (set_generic _ _) _) as [[n2 k4]|] eqn:H4;
    cbn [mbind result_bind foldl].
  - destruct (_ && _); done.
  - intros ?; simplify_eq.
    apply set_generic_Raise in H4 as [H4|]; [|done].
    apply set_generic_Raise in H4 as [H4|]; [|done]. done.
Qed.

(** A successful call: the instance that was built, what the save found
    in it and the row that was written. *)
Lemma notify_handler_inv now verb kwargs t n t' :
  notify_handler EXTRA_DATA AUTH_USER_MODEL repr_ now verb kwargs t
  = Ok (n, t') →
  ∃ n0 k r a ts,
    newnotify EXTRA_DATA AUTH_USER_MODEL repr_ now verb kwargs = Ok n0 ∧
    Instance.recipient_id n0 = Some r ∧
    Instance.actor_object_id n0 = Some a ∧
    Instance.timestamp n0 = VTime ts ∧
    t !! k = None ∧ n = set_id k (as_row r a ts n0) ∧ t' = <[k := n]> t.
Proof.
  unfold notify_handler.
  destruct (newnotify _ _ _ _ _ _) as [n0|] eqn:Hn;
    cbn [mbind result_bind]; [|done].
  intros H. apply save_new_inv in H as (k & r & a & ts & H).
  exists n0, k, r, a, ts. done.
Qed.

Lemma notify_handler_Raise now verb kwargs t e :
  notify_handler EXTRA_DATA AUTH_USER_MODEL repr_ now verb kwargs t
  = Raise e →
  ¬ configuration_error e.
Proof.
  unfold notify_handler.
  destruct (newnotify _ _ _ _ _ _) as [n0|] eqn:Hn; cbn [mbind result_bind].
  - apply save_new_Raise.
  - intros [= <-]. by eapply newnotify_Raise.
Qed.

(** A created notification, field by field. *)
Lemma notify_handler_fields now verb_ kwargs t n t' :
  notify_handler EXTRA_DATA AUTH_USER_MODEL repr_ now verb_ kwargs t
  = Ok (n, t') →
  ∃ k rs ra ss sa,
    kwargs !! "recipient"
    = Some (VObj AUTH_USER_MODEL (Some (recipient n)) rs ra) ∧
    kwargs !! "sender"
    = Some (VObj (actor_content_type n) (Some (actor_object_id n)) ss sa) ∧
    default (VTime now) (kwargs !! "timestamp") = VTime (timestamp n) ∧
    relatable (kwargs !! "target") ∧
    relatable (kwargs !! "action_object") ∧
    t !! k = None ∧ t' = <[k := n]> t ∧
    id n = Some k ∧ level n = "info" ∧ unread n = true ∧
    verb n = unicode repr_ verb_ ∧
    description n = default VNone (kwargs !! "description") ∧
    target_content_type n
    = generic_type (default VNone (kwargs !! "target")) ∧
    target_object_id n = generic_id (default VNone (kwargs !! "target")) ∧
    action_object_content_type n
    = generic_type (default VNone (kwargs !! "action_object")) ∧
    action_object_object_id n
    = generic_id (default VNone (kwargs !! "action_object")) ∧
    public n = truthy (default (VBool true) (kwargs !! "public")) ∧
    custom_str_format n = default VNone (kwargs !! "custom_str_format") ∧
    data n = (if nonempty (extras kwargs) && EXTRA_DATA
              then Some (extras kwargs) else None) ∧
    custom_ctx n = default VNone (kwargs !! "custom_ctx").
Proof.
  intros H.
  apply notify_handler_inv in H
    as (n0 & k & r & a & ts & Hn & Hr & Ha & Hts & Hk & -> & ->).
  apply newnotify_fields in Hn
    as (rpk & rs & ra & sender & Hkr & Hks & Hty & Hrt & Hra & ->).
  cbn in Hr, Ha, Hts. subst rpk.
  destruct sender as [| | | | | |sm spk ss sa]; try (by destruct Hty).
  cbn in Ha. subst spk.
  exists k, rs, ra, ss, sa. cbn. rewrite Hts. repeat split; done.
Qed.

Lemma generic_halves v :
  (unsaved v = false → paired (generic_type v) (generic_id v)) ∧
  (unsaved v = true → is_Some (generic_type v) ∧ generic_id v = None).
Proof.
  unfold paired. destruct v as [| | | | | |model [pk|] s a]; simpl;
    split; intros H; try discriminate H; eauto.
Qed.

(** C1.  A notification created by the handler is unread and enters the
    table as a new row; and whenever a row is read after an operation of
    the module, either the operation is [mark_as_read] or
    [mark_all_as_read], or that row was there and read before. *)
Theorem unread_until_marked_read :
  (∀ now verb kwargs t n t',
      notify_handler EXTRA_DATA AUTH_USER_MODEL repr_ now verb kwargs t
      = Ok (n, t') →
      unread n = true ∧ ∃ k, t !! k = None ∧ t' !! k = Some n) ∧
  (∀ op t k n',
      run EXTRA_DATA AUTH_USER_MODEL repr_ op t !! k = Some n' →
      unread n' = false →
      marks_read op ∨ ∃ n, t !! k = Some n ∧ unread n = false).
Proof.
  split.
  - intros now verb kwargs t n t' H.
    apply notify_handler_inv in H
      as (n0 & k & r & a & ts & Hn & _ & _ & _ & Hk & -> & ->).
    apply newnotify_fields in Hn as (? & ? & ? & ? & _ & _ & _ & _ & _ & ->).
    split; [done|].
    exists k. split; [done|]. apply lookup_insert_eq.
  - intros op t k n' Hrun Hread. destruct op; simpl in *; eauto.
    + destruct (notify_handler _ _ _ _ _ _ _) as [[n t']|] eqn:H; [|eauto].
      apply notify_handler_inv in H
        as (n0 & j & r & a & ts & Hn & _ & _ & _ & Hj & -> & ->).
      apply newnotify_fields in Hn
        as (? & ? & ? & ? & _ & _ & _ & _ & _ & ->).
      destruct (decide (j = k)) as [->|Hne].
      * rewrite lookup_insert_eq in Hrun. simplify_eq.
      * rewrite lookup_insert_ne in Hrun by done. eauto.
    + unfold NotificationQuerySet.mark_all_as_unread in Hrun.
      rewrite update_lookup in Hrun.
      destruct (t !! k) as [n|]; simplify_eq/=.
      destruct (matches _ _ n); [done|]. eauto.
Qed.

(** C8, as the code has it.  On a notification created by the handler the
    content type and the object id of [target] are both unset or both
    set, unless the object passed as target is an instance that was never
    saved: then the content type is set and the object id is null.  The
    same holds of [action_object]. *)
Theorem generic_relations_paired now verb kwargs t n t' :
  notify_handler EXTRA_DATA AUTH_USER_MODEL repr_ now verb kwargs t
  = Ok (n, t') →
  (unsaved (default VNone (kwargs !! "target")) = false →
   paired (target_content_type n) (target_object_id n)) ∧
  (unsaved (default VNone (kwargs !! "target")) = true →
   is_Some (target_content_type n) ∧ target_object_id n = None) ∧
  (unsaved (default VNone (kwargs !! "action_object")) = false →
   paired (action_object_content_type n) (action_object_object_id n)) ∧
  (unsaved (default VNone (kwargs !! "action_object")) = true →
   is_Some (action_object_content_type n) ∧
   action_object_object_id n = None).
Proof.
  intros H. apply notify_handler_fields in H
    as (k & rs & ra & ss & sa & _ & _ & _ & _ & _ & _ & _ & _ & _ & _ & _ &
        _ & -> & -> & -> & -> & _).
  pose proof (generic_halves (default VNone (kwargs !! "target"))) as [? ?].
  pose proof (generic_halves (default VNone (kwargs !! "action_object")))
    as [? ?].
  done.
Qed.

(** C10.  The handler drops the [signal] keyword before it builds the
    notification: a stored [data] never has a [signal] entry, and a
    payload with no key beyond the recognized ones ([signal] among them)
    stores no [data] at all. *)
Theorem signal_never_stored now verb kwargs t n t' :
  notify_handler EXTRA_DATA AUTH_USER_MODEL repr_ now verb kwargs t
  = Ok (n, t') →
  (∀ d, data n = Some d → d !! "signal" = None) ∧
  ((∀ key, is_Some (kwargs !! key) → key ∈ recognized) → data n = None).
Proof.
  intros H. apply notify_handler_fields in H
    as (k & rs & ra & ss & sa & _ & _ & _ & _ & _ & _ & _ & _ & _ & _ & _ &
        _ & _ & _ & _ & _ & _ & _ & Hd & _).
  rewrite Hd. split.
  - intros d. destruct (_ && _); intros; simplify_eq.
    apply extras_lookup_recognized. set_solver.
  - intros He. rewrite (extras_empty kwargs He).
    unfold nonempty. rewrite bool_decide_eq_true_2 by done. done.
Qed.

(** With the JSON columns, the keys that are left are stored as they
    are. *)
Lemma extras_stored_verbatim now verb kwargs t n t' :
  EXTRA_DATA = true →
  notify_handler EXTRA_DATA AUTH_USER_MODEL repr_ now verb kwargs t
  = Ok (n, t') →
  extras kwargs ≠ ∅ →
  data n = Some (extras kwargs).
Proof.
  intros HE H Hne. apply notify_handler_fields in H
    as (k & rs & ra & ss & sa & _ & _ & _ & _ & _ & _ & _ & _ & _ & _ & _ &
        _ & _ & _ & _ & _ & _ & _ & Hd & _).
  rewrite Hd, HE.
  unfold nonempty. by rewrite bool_decide_eq_false_2.
Qed.

(** C3, as the code has it.  Without [verb] the call itself fails with a
    [TypeError]; without [recipient], or with it and without [sender],
    the handler fails with the [KeyError] of that key; and no failure of
    the handler is a configuration error. *)
Theorem missing_required_field now named t :
  (named !! "verb" = None →
     ∃ msg, receive EXTRA_DATA AUTH_USER_MODEL repr_ now named t
            = Raise (TypeError msg)) ∧
  (is_Some (named !! "verb") → named !! "recipient" = None →
     receive EXTRA_DATA AUTH_USER_MODEL repr_ now named t
     = Raise (KeyError "recipient")) ∧
  (is_Some (named !! "verb") → is_Some (named !! "recipient") →
   named !! "sender" = None →
     receive EXTRA_DATA AUTH_USER_MODEL repr_ now named t
     = Raise (KeyError "sender")) ∧
  (∀ e, receive EXTRA_DATA AUTH_USER_MODEL repr_ now named t = Raise e →
     ¬ configuration_error e).
Proof.
  unfold receive. repeat split.
  - intros ->. eauto.
  - intros [verb ->] Hr. unfold notify_handler, newnotify.
    rewrite ?pop_default_eq. unfold pop.
    rewrite lookup_delete_ne, lookup_delete_ne, Hr by done. done.
  - intros [verb ->] [r Hr] Hs. unfold notify_handler, newnotify.
    rewrite ?pop_default_eq. unfold pop.
    rewrite lookup_delete_ne, lookup_delete_ne, Hr by done.
    cbn [mbind result_bind].
    rewrite lookup_delete_ne, lookup_delete_ne, lookup_delete_ne, Hs by done.
    done.
  - intros e. destruct (named !! "verb") as [verb|];
      [|intros ? ?; by simplify_eq/=].
    apply notify_handler_Raise.
Qed.

End Handler.

(** C6, where the code departs from it.  On a class without the JSON
    columns the handler never creates a notification: the constructor is
    given [custom_ctx], which is then no column.  The sample payload, with
    one extra key, ends in that [TypeError]. *)
Theorem no_notification_without_json_columns :
  (∀ AUTH_USER_MODEL repr_ now verb kwargs t,
      ∃ e, notify_handler false AUTH_USER_MODEL repr_ now verb kwargs t
           = Raise e) ∧
  notify_handler false "auth.user" Sample.repr_ 100 (VStr "liked")
    Sample.kwargs ∅
  = Raise (TypeError
             "'custom_ctx' is an invalid keyword argument for this function").
Proof.
  split; [|by vm_compute].
  intros AUTH_USER_MODEL repr_ now verb kwargs t. unfold notify_handler.
  destruct (newnotify _ _ _ _ _ _) as [n|] eqn:Hn; simpl; [|eauto].
  exfalso. revert Hn. unfold newnotify. rewrite ?pop_default_eq.
  destruct (pop "recipient" _) as [[recipient k1]|]; cbn [mbind result_bind];
    [|done].
  destruct (pop "sender" _) as [[sender k2]|]; cbn [mbind result_bind]; [|done].
  rewrite ?pop_default_eq.
  destruct (get_for_model sender) as [ct|]; cbn [mbind result_bind]; [|done].
  destruct (pk_of sender) as [pk|]; cbn [mbind result_bind]; [|done].
  rewrite ?pop_default_eq. unfold Notification_init.
  destruct (user_key _ _) as [r|]; cbn [mbind result_bind]; done.
Qed.

(** ** Properties of the rendering *)

Section Rendering.
Context (repr_ : Value → string) (timesince_ : Z → option Z → string)
        (get_object_for_this_type : ContentType → Z → option Value).

Lemma context_has_slots n :
  has_slots (context timesince_ get_object_for_this_type n).
Proof.
  intros key Hin. unfold context.
  repeat (apply elem_of_cons in Hin as [->|Hin]; [by simplify_map_eq|]).
  by apply elem_of_nil in Hin.
Qed.

Lemma bypass_key_slots d acc c ctx' :
  bypass_key d acc c = Ok ctx' →
  ∃ ctx, acc = Ok ctx ∧ (has_slots ctx → has_slots ctx').
Proof.
  unfold bypass_key. destruct acc as [ctx|]; simpl; [|done].
  intros H. exists ctx. split; [done|]. intros Hs key Hin.
  destruct (ctx !! c) eqn:Hc; [|by simplify_eq; auto].
  repeat case_match; simplify_eq/=.
  destruct (getattr _ _); simplify_eq/=.
  destruct (decide (c = key)) as [->|]; simplify_map_eq; eauto.
Qed.

Lemma foldl_bypass_slots d keys acc ctx' :
  foldl (bypass_key d) acc keys = Ok ctx' →
  ∃ ctx, acc = Ok ctx ∧ (has_slots ctx → has_slots ctx').
Proof.
  revert acc. induction keys as [|c keys IH]; intros acc; simpl.
  - intros ->. eauto.
  - intros H. apply IH in H as (ctx1 & H1 & Hs1).
    apply bypass_key_slots in H1 as (ctx & -> & Hs). eauto.
Qed.

(** The loop over [custom_ctx] replaces values and keeps the keys. *)
Lemma apply_custom_ctx_slots cc ctx ctx' :
  apply_custom_ctx cc ctx = Ok ctx' → has_slots ctx → has_slots ctx'.
Proof.
  unfold apply_custom_ctx. destruct (truthy cc); [|by intros; simplify_eq].
  destruct cc; try done; try (by intros; simplify_eq).
  intros H. apply foldl_bypass_slots in H as (? & ? & ?). by simplify_eq.
Qed.

Lemma apply_custom_ctx_falsy cc ctx :
  truthy cc = false → apply_custom_ctx cc ctx = Ok ctx.
Proof. unfold apply_custom_ctx. by intros ->. Qed.

Lemma slot_lookup ctx key :
  is_Some (ctx !! key) →
  ∃ v, ctx !! key = Some v ∧ slot repr_ ctx key = unicode repr_ v.
Proof. intros [v Hv]. exists v. unfold slot. by rewrite Hv. Qed.

Ltac slots ctx Hs :=
  let go key :=
    let H := fresh "H" in
    let v := fresh "v" in
    let Hv := fresh "Hv" in
    let Hsl := fresh "Hsl" in
    assert (is_Some (ctx !! key)) as H by (apply Hs; set_solver);
    apply slot_lookup in H as (v & Hv & Hsl); try rewrite Hsl; clear Hsl in
  go "actor"; go "verb"; go "action_object"; go "target"; go "timesince".

Lemma interpolate_actor_verb_object_on_target ctx :
  has_slots ctx →
  interpolate repr_
    "%(actor)s %(verb)s %(action_object)s on %(target)s %(timesince)s ago" ctx
  = Ok (slot repr_ ctx "actor" +:+ " " +:+ slot repr_ ctx "verb" +:+ " " +:+
        slot repr_ ctx "action_object" +:+ " on " +:+
        slot repr_ ctx "target" +:+ " " +:+
        slot repr_ ctx "timesince" +:+ " ago").
Proof.
  intros Hs. slots ctx Hs. unfold interpolate. simpl.
  rewrite Hv; simpl. rewrite Hv0; simpl. rewrite Hv1; simpl.
  rewrite Hv2; simpl. rewrite Hv3; simpl. done.
Qed.

Lemma interpolate_actor_verb_target ctx :
  has_slots ctx →
  interpolate repr_ "%(actor)s %(verb)s %(target)s %(timesince)s ago" ctx
  = Ok (slot repr_ ctx "actor" +:+ " " +:+ slot repr_ ctx "verb" +:+ " " +:+
        slot repr_ ctx "target" +:+ " " +:+
        slot repr_ ctx "timesince" +:+ " ago").
Proof.
  intros Hs. slots ctx Hs. unfold interpolate. simpl.
  rewrite Hv; simpl. rewrite Hv0; simpl. rewrite Hv2; simpl.
  rewrite Hv3; simpl. done.
Qed.

Lemma interpolate_actor_verb_object ctx :
  has_slots ctx →
  interpolate repr_
    "%(actor)s %(verb)s %(action_object)s %(timesince)s ago" ctx
  = Ok (slot repr_ ctx "actor" +:+ " " +:+ slot repr_ ctx "verb" +:+ " " +:+
        slot repr_ ctx "action_object" +:+ " " +:+
        slot repr_ ctx "timesince" +:+ " ago").
Proof.
  intros Hs. slots ctx Hs. unfold interpolate. simpl.
  rewrite Hv; simpl. rewrite Hv0; simpl. rewrite Hv1; simpl.
  rewrite Hv3; simpl. done.
Qed.

Lemma interpolate_actor_verb ctx :
  has_slots ctx →
  interpolate repr_ "%(actor)s %(verb)s %(timesince)s ago" ctx
  = Ok (slot repr_ ctx "actor" +:+ " " +:+ slot repr_ ctx "verb" +:+ " " +:+
        slot repr_ ctx "timesince" +:+ " ago").
Proof.
  intros Hs. slots ctx Hs. unfold interpolate. simpl.
  rewrite Hv; simpl. rewrite Hv0; simpl. rewrite Hv3; simpl. done.
Qed.

(** Without [custom_ctx] the directives read the fields themselves. *)
Lemma context_slots n :
  let ctx := context timesince_ get_object_for_this_type n in
  slot repr_ ctx "actor" = unicode repr_ (actor get_object_for_this_type n) ∧
  slot repr_ ctx "verb" = verb n ∧
  slot repr_ ctx "action_object"
  = unicode repr_ (action_object get_object_for_this_type n) ∧
  slot repr_ ctx "target"
  = unicode repr_ (target get_object_for_this_type n) ∧
  slot repr_ ctx "timesince" = timesince timesince_ n None.
Proof. unfold slot, context. by simplify_map_eq. Qed.

(** C4, as the code has it.  On a class with the JSON columns and
    without a custom format, with [ctx] the context after the
    [custom_ctx] loop: with a target the text is
    "actor verb action_object on target timesince ago" when there is an
    action object and "actor verb target timesince ago", with no "on",
    when there is none; without a target it is
    "actor verb action_object timesince ago" or "actor verb timesince ago". *)
Theorem default_rendering (EXTRA_DATA : bool) (n : Notification)
  (ctx : gmap string Value) :
  EXTRA_DATA = true →
  truthy (custom_str_format n) = false →
  apply_custom_ctx (custom_ctx n)
    (context timesince_ get_object_for_this_type n) = Ok ctx →
  __unicode__ EXTRA_DATA repr_ timesince_ get_object_for_this_type n =
  Ok (if truthy (target get_object_for_this_type n) then
        if truthy (action_object get_object_for_this_type n) then
          slot repr_ ctx "actor" +:+ " " +:+ slot repr_ ctx "verb" +:+ " " +:+
          slot repr_ ctx "action_object" +:+ " on " +:+
          slot repr_ ctx "target" +:+ " " +:+
          slot repr_ ctx "timesince" +:+ " ago"
        else
          slot repr_ ctx "actor" +:+ " " +:+ slot repr_ ctx "verb" +:+ " " +:+
          slot repr_ ctx "target" +:+ " " +:+
          slot repr_ ctx "timesince" +:+ " ago"
      else if truthy (action_object get_object_for_this_type n) then
        slot repr_ ctx "actor" +:+ " " +:+ slot repr_ ctx "verb" +:+ " " +:+
        slot repr_ ctx "action_object" +:+ " " +:+
        slot repr_ ctx "timesince" +:+ " ago"
      else
        slot repr_ ctx "actor" +:+ " " +:+ slot repr_ ctx "verb" +:+ " " +:+
        slot repr_ ctx "timesince" +:+ " ago").
Proof.
  intros -> Hfmt Hctx. unfold __unicode__, read_custom_ctx.
  cbn [mbind result_bind]. rewrite Hctx. cbn [mbind result_bind].
  rewrite Hfmt.
  pose proof (apply_custom_ctx_slots _ _ _ Hctx (context_has_slots n)) as Hs.
  destruct (truthy (target _ n)), (truthy (action_object _ n)).
  - by apply interpolate_actor_verb_object_on_target.
  - by apply interpolate_actor_verb_target.
  - by apply interpolate_actor_verb_object.
  - by apply interpolate_actor_verb.
Qed.

(** X17.  With the JSON columns a non-empty custom format is the only template
    used, whatever [target] and [action_object] are. *)
Lemma custom_format_rendering (n : Notification) (fmt : string) :
  custom_str_format n = VStr fmt → fmt ≠ "" →
  __unicode__ true repr_ timesince_ get_object_for_this_type n =
  ctx ← apply_custom_ctx (custom_ctx n)
          (context timesince_ get_object_for_this_type n);
  interpolate repr_ fmt ctx.
Proof.
  intros Hf Hne. unfold __unicode__, read_custom_ctx. cbn [mbind result_bind].
  destruct (apply_custom_ctx _ _) as [ctx|]; cbn [mbind result_bind]; [|done].
  rewrite Hf. simpl. destruct (String.eqb_spec fmt ""); done.
Qed.

End Rendering.

(** C7, where the code departs from it.  On a class without the JSON
    columns [__unicode__] reads [self.custom_ctx] before it looks at the
    custom format and fails for every notification; the sample one carries
    the format "%(actor)s did %(verb)s". *)
Theorem rendering_without_json_columns :
  (∀ repr_ timesince_ objects n,
      __unicode__ false repr_ timesince_ objects n
      = Raise (AttributeError "custom_ctx")) ∧
  custom_str_format Sample.formatted = VStr "%(actor)s did %(verb)s" ∧
  __unicode__ false Sample.repr_ Sample.timesince_ Sample.objects
    Sample.formatted
  = Raise (AttributeError "custom_ctx").
Proof. done. Qed.

(** ** The properties at the sample data *)

Lemma unread_until_marked_read_witness :
  (∃ n t',
      notify_handler true "auth.user" Sample.repr_ 100 (VStr "commented on")
        Sample.kwargs ∅ = Ok (n, t') ∧
      unread n = true ∧ ∃ k, (∅ : Table) !! k = None ∧ t' !! k = Some n) ∧
  (marks_read (op_mark_all_as_read [] (Some Sample.bob_user)) ∨
   ∃ n, Sample.inbox !! 1 = Some n ∧ unread n = false).
Proof.
  split.
  - eexists _, _. split; [vm_compute; reflexivity|].
    eapply (proj1 (unread_until_marked_read true "auth.user" Sample.repr_)
              100 (VStr "commented on") Sample.kwargs ∅).
    vm_compute; reflexivity.
  - eapply (proj2 (unread_until_marked_read true "auth.user" Sample.repr_)
              (op_mark_all_as_read [] (Some Sample.bob_user)) Sample.inbox 1
              (set_unread false Sample.commented)).
    + vm_compute; reflexivity.
    + reflexivity.
Defined.

Lemma mark_all_as_read_other_recipients_witness :
  Sample.inbox !! 3 = Some Sample.closed ∧
  recipient Sample.closed ≠ user_pk Sample.bob_user ∧
  NotificationQuerySet.mark_all_as_read [] (Some Sample.bob_user) Sample.inbox
    !! 3 = Some Sample.closed.
Proof.
  split; [vm_compute; reflexivity|]. split; [simpl; lia|].
  apply mark_all_as_read_other_recipients; [vm_compute; reflexivity|simpl; lia].
Defined.

Lemma default_ordering_descending_witness :
  ∃ a b, fetch [] Sample.timeline !! 1%nat = Some a ∧
         fetch [] Sample.timeline !! 2%nat = Some b ∧
         timestamp a = 200 ∧ timestamp b = 100 ∧
         timestamp b ≤ timestamp a.
Proof.
  eexists _, _. split; [vm_compute; reflexivity|].
  split; [vm_compute; reflexivity|].
  split; [reflexivity|]. split; [reflexivity|].
  apply (default_ordering_descending [] Sample.timeline 1);
    vm_compute; reflexivity.
Defined.

Lemma generic_relations_paired_witness :
  ∃ n t',
    notify_handler true "auth.user" Sample.repr_ 100 (VStr "commented on")
      Sample.kwargs ∅ = Ok (n, t') ∧
    target_content_type n = Some "code.repo" ∧ target_object_id n = Some 7 ∧
    paired (target_content_type n) (target_object_id n) ∧
    paired (action_object_content_type n) (action_object_object_id n).
Proof.
  eexists _, _. split; [vm_compute; reflexivity|].
  split; [reflexivity|]. split; [reflexivity|].
  pose proof (generic_relations_paired true "auth.user" Sample.repr_
                100 (VStr "commented on") Sample.kwargs ∅ _ _
                ltac:(vm_compute; reflexivity))
    as (Ht & _ & Ha & _).
  split; [apply Ht|apply Ha]; vm_compute; reflexivity.
Defined.

Lemma mark_all_as_read_idempotent_witness :
  flag_local [Sample.level_info] ∧
  NotificationQuerySet.mark_all_as_read [Sample.level_info]
    (Some Sample.bob_user)
    (NotificationQuerySet.mark_all_as_read [Sample.level_info]
       (Some Sample.bob_user) Sample.inbox)
  = NotificationQuerySet.mark_all_as_read [Sample.level_info]
      (Some Sample.bob_user) Sample.inbox.
Proof.
  split.
  - intros t t' n _. reflexivity.
  - apply (mark_all_as_read_idempotent [Sample.level_info]
             (Some Sample.bob_user) Sample.inbox).
    intros t t' n _. reflexivity.
Defined.

Lemma signal_never_stored_witness :
  (∃ n t',
      notify_handler true "auth.user" Sample.repr_ 100 (VStr "commented on")
        Sample.kwargs ∅ = Ok (n, t') ∧
      is_Some (data n) ∧ ∀ d, data n = Some d → d !! "signal" = None) ∧
  (∃ n t',
      notify_handler true "auth.user" Sample.repr_ 100 (VStr "commented on")
        Sample.kwargs_plain ∅ = Ok (n, t') ∧
      data n = None).
Proof.
  split.
  - eexists _, _. split; [vm_compute; reflexivity|]. split; [by eexists|].
    refine (proj1 (signal_never_stored true "auth.user" Sample.repr_
                     100 (VStr "commented on") Sample.kwargs ∅ _ _ _)).
    vm_compute; reflexivity.
  - eexists _, _. split; [vm_compute; reflexivity|].
    refine (proj2 (signal_never_stored true "auth.user" Sample.repr_
                     100 (VStr "commented on") Sample.kwargs_plain ∅ _ _ _) _);
      [vm_compute; reflexivity|].
    intros key [v Hv]. unfold Sample.kwargs_plain, recognized in *.
    destruct (decide (key = "signal")) as [->|]; [set_solver|].
    destruct (decide (key = "recipient")) as [->|]; [set_solver|].
    destruct (decide (key = "sender")) as [->|]; [set_solver|].
    by simplify_map_eq.
Defined.

Lemma missing_required_field_witness :
  (∃ msg, receive true "auth.user" Sample.repr_ 100 Sample.named_without_verb ∅
          = Raise (TypeError msg)) ∧
  receive true "auth.user" Sample.repr_ 100 Sample.named_without_recipient ∅
  = Raise (KeyError "recipient") ∧
  receive true "auth.user" Sample.repr_ 100 Sample.named_without_sender ∅
  = Raise (KeyError "sender").
Proof.
  split; [|split].
  - apply (proj1 (missing_required_field true "auth.user" Sample.repr_ 100
                    Sample.named_without_verb ∅)).
    vm_compute; reflexivity.
  - apply (proj1 (proj2 (missing_required_field true "auth.user" Sample.repr_
                           100 Sample.named_without_recipient ∅))).
    + by eexists.
    + vm_compute; reflexivity.
  - apply (proj1 (proj2 (proj2 (missing_required_field true "auth.user"
                                  Sample.repr_ 100
                                  Sample.named_without_sender ∅)))).
    + by eexists.
    + by eexists.
    + vm_compute; reflexivity.
Defined.

(** The second example of the specification: actor, verb "commented on"
    and a target, no action object. *)
Lemma default_rendering_witness :
  __unicode__ true Sample.repr_ Sample.timesince_ Sample.objects
    Sample.commented
  = Ok "alice commented on pinax/pinax 2 hours ago".
Proof.
  rewrite (default_rendering Sample.repr_ Sample.timesince_ Sample.objects
             true Sample.commented
             (context Sample.timesince_ Sample.objects Sample.commented)).
  - vm_compute; reflexivity.
  - reflexivity.
  - reflexivity.
  - reflexivity.
Defined.

(** ** Where the code departs from the specification *)

(** C2.  On a scope that is filtered through a relation the second call
    is not the first one again.  With the scope "at level error, or of a
    recipient who has a read notification at level error" and two unread
    notifications of one user, at level error and at level info, the
    first call marks the one at level error only; that brings the other
    one into the scope, and the second call marks it. *)
Lemma relation_scope_second_call_marks_more :
  let scope := [Sample.error_or_seen_error] in
  let once := NotificationQuerySet.mark_all_as_read scope None Sample.builds in
  let twice := NotificationQuerySet.mark_all_as_read scope None once in
  once !! 1 = Some (set_unread false Sample.failed) ∧
  once !! 2 = Some Sample.passed ∧
  twice !! 2 = Some (set_unread false Sample.passed) ∧
  twice ≠ once.
Proof.
  cbv zeta. split; [by vm_compute|]. split; [by vm_compute|].
  split; [by vm_compute|].
  intros H. apply (f_equal (λ t : Table, unread <$> t !! 2)) in H.
  vm_compute in H. discriminate H.
Qed.

(** C8.  A target that was never saved: the handler succeeds and the
    notification has the content type of the target and no object id. *)
Lemma unsaved_target_half_set :
  ∃ n t',
    notify_handler true "auth.user" Sample.repr_ 100 (VStr "created")
      Sample.kwargs_draft_target ∅ = Ok (n, t') ∧
    target_content_type n = Some "code.repo" ∧
    target_object_id n = None ∧
    ¬ paired (target_content_type n) (target_object_id n).
Proof.
  eexists _, _. split; [vm_compute; reflexivity|].
  split; [reflexivity|]. split; [reflexivity|].
  unfold paired. simpl. intros [[H _]|[_ [x H]]]; discriminate H.
Qed.

(** C3.  A payload without [recipient] ends in a [KeyError], which is no
    configuration error. *)
Lemma missing_recipient_is_key_error :
  receive true "auth.user" Sample.repr_ 100 Sample.named_without_recipient ∅
  = Raise (KeyError "recipient") ∧
  ¬ ∃ e, receive true "auth.user" Sample.repr_ 100
           Sample.named_without_recipient ∅ = Raise e ∧
         configuration_error e.
Proof.
  split; [by vm_compute|].
  intros (e & He & Hc). vm_compute in He. simplify_eq. exact Hc.
Qed.

(** C4.  With a target and no action object the text has no "on" of its
    own between the verb and the target. *)
Lemma target_only_has_no_on :
  truthy (target Sample.objects Sample.liked) = true ∧
  truthy (action_object Sample.objects Sample.liked) = false ∧
  __unicode__ true Sample.repr_ Sample.timesince_ Sample.objects Sample.liked
  = Ok "alice liked pinax/pinax 2 hours ago" ∧
  __unicode__ true Sample.repr_ Sample.timesince_ Sample.objects Sample.liked
  ≠ Ok "alice liked on pinax/pinax 2 hours ago".
Proof.
  split; [by vm_compute|]. split; [by vm_compute|]. split; [by vm_compute|].
  vm_compute. discriminate.
Qed.

(** C9.  Two notifications with the same timestamp are consecutive in the
    default ordering. *)
Lemma equal_timestamps_not_strict :
  ∃ a b, fetch [] Sample.timeline !! 0%nat = Some a ∧
         fetch [] Sample.timeline !! 1%nat = Some b ∧
         ¬ (timestamp b < timestamp a).
Proof.
  eexists _, _. split; [vm_compute; reflexivity|].
  split; [vm_compute; reflexivity|]. simpl. lia.
Qed.

(** ** Further properties of the queryset *)

Lemma set_unread_same n : set_unread (unread n) n = n.
Proof. by destruct n. Qed.

Lemma update_changes qs b (t : Table) k n' :
  update qs b t !! k = Some n' →
  ∃ n, t !! k = Some n ∧
       ((n' = n ∧ matches t qs n = false) ∨
        (n' = set_unread b n ∧ matches t qs n = true)).
Proof.
  rewrite update_lookup. destruct (t !! k) as [n|]; [|done]. simpl.
  intros [= <-]. exists n. split; [done|].
  destruct (matches t qs n); eauto.
Qed.

Lemma bulk_scope_matches t (scope : QuerySet) (r : option User) b n :
  matches t (bulk scope b r) n = true ↔
  matches t scope n = true ∧ unread n = b ∧ addressed_to r n.
Proof.
  unfold bulk, addressed_to. destruct r as [R|]; rewrite ?matches_filter; simpl.
  - rewrite !andb_true_iff, Z.eqb_eq, Bool.eqb_true_iff. split.
    + intros [[Hs Hu] Hr]. repeat split; [done..|]. by intros ? [= <-].
    + intros (Hs & Hu & Hr). repeat split; [done..|]. by apply Hr.
  - rewrite andb_true_iff, Bool.eqb_true_iff. split.
    + intros [Hs Hu]. repeat split; done.
    + intros (Hs & Hu & _). done.
Qed.

(** X1.  On a scope whose conditions do not read the [unread] flag of other
    rows, marking as unread twice is marking once. *)
Theorem mark_all_as_unread_idempotent
  (scope : QuerySet) (r : option User) (t : Table) :
  flag_local scope →
  NotificationQuerySet.mark_all_as_unread scope r
    (NotificationQuerySet.mark_all_as_unread scope r t)
  = NotificationQuerySet.mark_all_as_unread scope r t.
Proof.
  intros Hl.
  change (update (bulk scope false r) true (update (bulk scope false r) true t)
          = update (bulk scope false r) true t).
  apply update_twice.
  - intros t' n. apply (bulk_after_update t' scope true).
  - intros n. apply bulk_flag_local; [done|]. apply update_same_but_flags.
Qed.

(** X2.  What a bulk mark-as-read can do to a row: nothing, or clear the flag
    of a row that was unread, in the scope and of the recipient.  No row is
    added or removed. *)
Theorem mark_all_as_read_changes
  (scope : QuerySet) (r : option User) (t : Table) :
  dom (NotificationQuerySet.mark_all_as_read scope r t) = dom t ∧
  ∀ k n',
    NotificationQuerySet.mark_all_as_read scope r t !! k = Some n' →
    ∃ n, t !! k = Some n ∧
         (n' = n ∨
          (n' = set_unread false n ∧ matches t scope n = true ∧
           unread n = true ∧ addressed_to r n)).
Proof.
  unfold NotificationQuerySet.mark_all_as_read, NotificationQuerySet.unread.
  split; [apply dom_fmap_L|].
  intros k n' H. apply update_changes in H as (n & Hn & [[-> _]|[-> Hm]]);
    exists n; (split; [done|]); [by left|right].
  apply (bulk_scope_matches t scope r true) in Hm as (Hs & Hu & Hr). done.
Qed.

(** X3.  What a bulk mark-as-unread can do to a row: nothing, or set the
    flag of a row that was read, in the scope and of the recipient.  No row
    is added or removed. *)
Theorem mark_all_as_unread_changes
  (scope : QuerySet) (r : option User) (t : Table) :
  dom (NotificationQuerySet.mark_all_as_unread scope r t) = dom t ∧
  ∀ k n',
    NotificationQuerySet.mark_all_as_unread scope r t !! k = Some n' →
    ∃ n, t !! k = Some n ∧
         (n' = n ∨
          (n' = set_unread true n ∧ matches t scope n = true ∧
           unread n = false ∧ addressed_to r n)).
Proof.
  unfold NotificationQuerySet.mark_all_as_unread, NotificationQuerySet.read.
  split; [apply dom_fmap_L|].
  intros k n' H. apply update_changes in H as (n & Hn & [[-> _]|[-> Hm]]);
    exists n; (split; [done|]); [by left|right].
  apply (bulk_scope_matches t scope r false) in Hm as (Hs & Hu & Hr). done.
Qed.

(** X4.  On a scope whose conditions do not read the [unread] flag of other
    rows: after a bulk mark-as-read, a row that is still unread in the
    scope belongs to another recipient; without a recipient there is
    none. *)
Theorem mark_all_as_read_leaves_none_unread
  (scope : QuerySet) (r : option User) (t : Table) (k : Z)
  (n' : Notification) :
  flag_local scope →
  NotificationQuerySet.mark_all_as_read scope r t !! k = Some n' →
  matches (NotificationQuerySet.mark_all_as_read scope r t)
    (NotificationQuerySet.unread scope) n' = true →
  ∃ R, r = Some R ∧ recipient n' ≠ user_pk R.
Proof.
  intros Hl H Hu.
  rewrite (bulk_flag_local scope true None Hl _ t n') in Hu
    by apply update_same_but_flags.
  change (update (bulk scope true r) false t !! k = Some n') in H.
  apply update_changes in H as (n & Hn & [[-> Hm]|[-> Hm]]).
  - destruct r as [R|]; [|unfold bulk in *; congruence].
    exists R. split; [done|]. intros Heq.
    unfold bulk in Hm, Hu. rewrite matches_filter, Hu in Hm. simpl in Hm.
    apply Z.eqb_neq in Hm. done.
  - by rewrite (bulk_after_update t scope false None) in Hu.
Qed.

(** X5.  Passing a recipient is filtering the scope by that recipient first. *)
Theorem mark_all_as_read_recipient_is_filter
  (scope : QuerySet) (R : User) (t : Table) :
  NotificationQuerySet.mark_all_as_read scope (Some R) t
  = NotificationQuerySet.mark_all_as_read (filter_ (recipient_is R) scope)
      None t.
Proof.
  unfold NotificationQuerySet.mark_all_as_read, NotificationQuerySet.unread,
    update.
  apply map_fmap_ext. intros k n _. rewrite !matches_filter. simpl.
  by rewrite <- !andb_assoc, (andb_comm (Bool.eqb _ _)).
Qed.

(** X6.  On a scope that does not read the flag and holds unread rows only,
    marking as unread undoes marking as read. *)
Theorem mark_all_as_unread_undoes_read
  (scope : QuerySet) (r : option User) (t : Table) :
  flag_independent scope →
  (∀ k n, t !! k = Some n → matches t scope n = true → unread n = true) →
  NotificationQuerySet.mark_all_as_unread scope r
    (NotificationQuerySet.mark_all_as_read scope r t) = t.
Proof.
  intros Hind Hall. apply map_eq; intros k.
  change (update (bulk scope false r) true (update (bulk scope true r) false t)
            !! k = t !! k).
  pose proof (update_same_but_flags (bulk scope true r) false t) as Hsame.
  rewrite !update_lookup. destruct (t !! k) as [n|] eqn:Hk; simpl; [|done].
  f_equal.
  destruct (matches t (bulk scope true r) n) eqn:Hm.
  - pose proof Hm as Hm'.
    apply (bulk_scope_matches t scope r true) in Hm' as (Hs & Hu & Hr).
    assert (matches (update (bulk scope true r) false t)
              (bulk scope false r) (set_unread false n) = true) as ->.
    { apply bulk_scope_matches. rewrite (Hind _ t n false Hsame). done. }
    destruct n; simpl in *; by subst.
  - assert (matches (update (bulk scope true r) false t)
              (bulk scope false r) n = false) as ->; [|done].
    apply not_true_is_false. intros Hf.
    apply bulk_scope_matches in Hf as (Hs & Hu & Hr).
    assert (matches t scope n = true) as Hs'.
    { rewrite <- (Hind _ t n (unread n) Hsame). by rewrite set_unread_same. }
    specialize (Hall k n Hk Hs'). congruence.
Qed.

(** ** Reading a queryset *)

Lemma fetch_elem_of (qs : QuerySet) (t : Table) (n : Notification) :
  n ∈ fetch qs t ↔ ∃ k, t !! k = Some n ∧ matches t qs n = true.
Proof.
  rewrite fetch_rows, list_elem_of_In, filter_In, <- list_elem_of_In.
  rewrite list_elem_of_fmap. split.
  - intros [([k n0] & -> & Hin) Hm]. apply elem_of_map_to_list in Hin. eauto.
  - intros (k & Hk & Hm). split; [|done].
    exists (k, n). split; [done|]. by apply elem_of_map_to_list.
Qed.

(** X7.  [unread()] yields the unread notifications of the queryset and
    [read()] the read ones, all of them and nothing else. *)
Theorem unread_read_filters (qs : QuerySet) (t : Table) (n : Notification) :
  (n ∈ fetch (NotificationQuerySet.unread qs) t ↔
   n ∈ fetch qs t ∧ unread n = true) ∧
  (n ∈ fetch (NotificationQuerySet.read qs) t ↔
   n ∈ fetch qs t ∧ unread n = false).
Proof.
  unfold NotificationQuerySet.unread, NotificationQuerySet.read.
  rewrite !fetch_elem_of. split; split.
  - intros (k & Hk & Hm). rewrite matches_filter, andb_true_iff in Hm.
    destruct Hm as [Hm Hu]. simpl in Hu.
    apply (proj1 (Bool.eqb_true_iff _ _)) in Hu.
    split; [eauto|done].
  - intros [(k & Hk & Hm) Hu]. exists k. split; [done|].
    rewrite matches_filter, Hm. simpl. by rewrite Hu.
  - intros (k & Hk & Hm). rewrite matches_filter, andb_true_iff in Hm.
    destruct Hm as [Hm Hu]. simpl in Hu.
    apply (proj1 (Bool.eqb_true_iff _ _)) in Hu.
    split; [eauto|done].
  - intros [(k & Hk & Hm) Hu]. exists k. split; [done|].
    rewrite matches_filter, Hm. simpl. by rewrite Hu.
Qed.

Lemma filter_split (t : Table) (l : list Notification) (qs : QuerySet) :
  List.filter (matches t qs) l ≡ₚ
  List.filter (matches t (filter_ (unread_is true) qs)) l ++
  List.filter (matches t (filter_ (unread_is false) qs)) l.
Proof.
  induction l as [|n l IH]; simpl; [done|].
  rewrite !matches_filter. simpl.
  destruct (matches t qs n); simpl; [|done].
  destruct (unread n); simpl.
  - by rewrite IH.
  - rewrite IH. apply Permutation_middle.
Qed.

(** X8.  The unread and the read notifications of a queryset together are the
    queryset, each row once. *)
Theorem unread_read_partition (qs : QuerySet) (t : Table) :
  fetch qs t ≡ₚ
  fetch (NotificationQuerySet.unread qs) t ++
  fetch (NotificationQuerySet.read qs) t.
Proof.
  unfold NotificationQuerySet.unread, NotificationQuerySet.read.
  rewrite !fetch_rows. apply filter_split.
Qed.

(** ** Marking one notification *)

(** X9.  [mark_as_read] on a saved, unread instance writes its row as read
    with every other field as the instance has it, touches no other row,
    and a second call on the returned instance changes nothing. *)
Theorem mark_as_read_saved (self : Notification) (t : Table) (k : Z) :
  id self = Some k →
  unread self = true →
  ∃ self' t',
    mark_as_read self t = (self', t') ∧
    self' = set_unread false self ∧
    t' !! k = Some self' ∧
    (∀ j, j ≠ k → t' !! j = t !! j) ∧
    mark_as_read self' t' = (self', t').
Proof.
  intros Hid Hu. unfold mark_as_read, save. rewrite Hu. simpl. rewrite Hid.
  eexists _, _. split; [done|]. split; [done|].
  split; [apply lookup_insert_eq|].
  split; [by intros j Hj; apply lookup_insert_ne|]. done.
Qed.

(** ** Further properties of the signal handler *)

Section HandlerExtras.
Context (EXTRA_DATA : bool) (AUTH_USER_MODEL : string)
        (repr_ : Value → string).

Local Arguments nonempty : simpl never.
Local Arguments extras : simpl never.

(** X10.  A successful call adds exactly one row, under the id of the returned
    instance, and leaves every row that was there as it was. *)
Theorem notify_handler_adds_one_row now verb kwargs (t : Table) n t' :
  notify_handler EXTRA_DATA AUTH_USER_MODEL repr_ now verb kwargs t
  = Ok (n, t') →
  ∃ k, id n = Some k ∧ t !! k = None ∧ t' !! k = Some n ∧
       size t' = S (size t) ∧
       ∀ j n0, t !! j = Some n0 → t' !! j = Some n0.
Proof.
  intros H. apply notify_handler_fields in H
    as (k & rs & ra & ss & sa & _ & _ & _ & _ & _ & Hk & -> & Hid & _).
  exists k. split; [done|]. split; [done|].
  split; [apply lookup_insert_eq|].
  split; [by apply map_size_insert_None|].
  intros j n1 Hj. rewrite lookup_insert_ne; [done|]. congruence.
Qed.

(** X11.  What the created notification takes from the payload: the verb in
    text form, the key of the recipient, type and key of the sender, and
    the optional fields as they were passed ([public] as a truth value). *)
Theorem notify_handler_stores_payload now verb_ kwargs (t : Table) n t' :
  notify_handler EXTRA_DATA AUTH_USER_MODEL repr_ now verb_ kwargs t
  = Ok (n, t') →
  verb n = unicode repr_ verb_ ∧
  (∃ rs ra, kwargs !! "recipient"
            = Some (VObj AUTH_USER_MODEL (Some (recipient n)) rs ra)) ∧
  (∃ ss sa, kwargs !! "sender"
            = Some (VObj (actor_content_type n) (Some (actor_object_id n))
                      ss sa)) ∧
  (∀ v, kwargs !! "public" = Some v → public n = truthy v) ∧
  (∀ v, kwargs !! "description" = Some v → description n = v) ∧
  (∀ v, kwargs !! "timestamp" = Some v → v = VTime (timestamp n)) ∧
  (∀ v, kwargs !! "custom_str_format" = Some v → custom_str_format n = v) ∧
  (∀ v, kwargs !! "custom_ctx" = Some v → custom_ctx n = v).
Proof.
  intros H. apply notify_handler_fields in H
    as (k & rs & ra & ss & sa & Hr & Hs & Hts & _ & _ & _ & _ & _ & _ & _ &
        Hv & Hd & _ & _ & _ & _ & Hp & Hf & _ & Hc).
  split; [done|]. split; [eauto|]. split; [eauto|].
  split; [by intros v Hv'; rewrite Hp, Hv'|].
  split; [by intros v Hv'; rewrite Hd, Hv'|].
  split; [by intros v Hv'; rewrite Hv' in Hts|].
  split; [by intros v Hv'; rewrite Hf, Hv'|].
  by intros v Hv'; rewrite Hc, Hv'.
Qed.

(** X12.  The optional fields the payload leaves out: level info, public,
    no description, the current time, no custom format, no target and no
    action object. *)
Theorem notify_handler_defaults now verb kwargs (t : Table) n t' :
  notify_handler EXTRA_DATA AUTH_USER_MODEL repr_ now verb kwargs t
  = Ok (n, t') →
  level n = "info" ∧
  (kwargs !! "public" = None → public n = true) ∧
  (kwargs !! "description" = None → description n = VNone) ∧
  (kwargs !! "timestamp" = None → timestamp n = now) ∧
  (kwargs !! "custom_str_format" = None → custom_str_format n = VNone) ∧
  (kwargs !! "target" = None →
     target_content_type n = None ∧ target_object_id n = None) ∧
  (kwargs !! "action_object" = None →
     action_object_content_type n = None ∧ action_object_object_id n = None).
Proof.
  intros H. apply notify_handler_fields in H
    as (k & rs & ra & ss & sa & Hr & Hs & Hts & _ & _ & _ & _ & _ & Hl & _ &
        _ & Hd & Htc & Hto & Hac & Hao & Hp & Hf & _).
  split; [done|]. split; [by intros Hn; rewrite Hp, Hn|].
  split; [by intros Hn; rewrite Hd, Hn|].
  split; [intros Hn; rewrite Hn in Hts; simpl in Hts; congruence|].
  split; [by intros Hn; rewrite Hf, Hn|].
  split; intros Hn.
  - by rewrite Htc, Hto, Hn.
  - by rewrite Hac, Hao, Hn.
Qed.

(** X13.  A target or an action object that is neither [None] nor a model
    instance makes the call fail; nothing is created. *)
Theorem notify_handler_rejects_non_objects now verb kwargs (t : Table) :
  ¬ relatable (kwargs !! "target") ∨
  ¬ relatable (kwargs !! "action_object") →
  ∃ e, notify_handler EXTRA_DATA AUTH_USER_MODEL repr_ now verb kwargs t
       = Raise e.
Proof.
  intros Hbad.
  destruct (notify_handler _ _ _ _ _ _ _) as [[n t']|e] eqn:H; [|eauto].
  apply notify_handler_fields in H
    as (k & rs & ra & ss & sa & _ & _ & _ & Ht & Ha & _).
  destruct Hbad as [Hbad|Hbad]; by destruct Hbad.
Qed.

(** X14.  With the JSON columns, reading any key of the stored data gives the
    value the payload had for it, except for the recognized keys, which
    are never there. *)
Theorem notify_handler_data now verb kwargs (t : Table) n t' key :
  EXTRA_DATA = true →
  notify_handler EXTRA_DATA AUTH_USER_MODEL repr_ now verb kwargs t
  = Ok (n, t') →
  data_lookup n key
  = if decide (key ∈ recognized) then None else kwargs !! key.
Proof.
  intros HE H. apply notify_handler_fields in H
    as (k & rs & ra & ss & sa & _ & _ & _ & _ & _ & _ & _ & _ & _ & _ & _ &
        _ & _ & _ & _ & _ & _ & _ & Hd & _).
  unfold data_lookup. rewrite Hd, HE, andb_true_r. unfold nonempty.
  destruct (decide (extras kwargs = ∅)) as [He|He].
  - rewrite bool_decide_eq_true_2 by done. simpl.
    destruct (decide (key ∈ recognized)); [done|].
    by rewrite <- (extras_lookup_other kwargs key), He.
  - rewrite bool_decide_eq_false_2 by done. simpl.
    destruct (decide (key ∈ recognized)).
    + by apply extras_lookup_recognized.
    + by apply extras_lookup_other.
Qed.

End HandlerExtras.

Section Relations.
Context (EXTRA_DATA : bool) (AUTH_USER_MODEL : string)
        (repr_ : Value → string)
        (get_object_for_this_type : ContentType → Z → option Value).

Lemma generic_resolves (o : option Value) :
  relatable o →
  resolves get_object_for_this_type (default VNone o) →
  generic get_object_for_this_type
    (generic_type (default VNone o)) (generic_id (default VNone o))
  = default VNone o.
Proof.
  unfold generic. destruct o as [[| | | | | |model [pk|] s a]|]; simpl;
    try done.
  intros _ H. by rewrite H.
Qed.

(** X16.  The generic relations of a created notification lead back to what
    the payload passed, as long as the resolver still finds those
    objects; a relation the payload left out, or passed as [None], is
    [None]. *)
Theorem generic_relations_round_trip now verb kwargs (t : Table) n t' :
  notify_handler EXTRA_DATA AUTH_USER_MODEL repr_ now verb kwargs t
  = Ok (n, t') →
  (∀ v, kwargs !! "sender" = Some v →
        resolves get_object_for_this_type v →
        actor get_object_for_this_type n = v) ∧
  (resolves get_object_for_this_type (default VNone (kwargs !! "target")) →
   target get_object_for_this_type n = default VNone (kwargs !! "target")) ∧
  (resolves get_object_for_this_type
     (default VNone (kwargs !! "action_object")) →
   action_object get_object_for_this_type n
   = default VNone (kwargs !! "action_object")).
Proof.
  intros H. apply notify_handler_fields in H
    as (k & rs & ra & ss & sa & Hr & Hs & Hts & Hrt & Hra & _ & _ & _ & _ &
        _ & _ & _ & Htc & Hto & Hac & Hao & _).
  unfold actor, target, action_object. rewrite Htc, Hto, Hac, Hao.
  split; [|split; by apply generic_resolves].
  intros v Hv Hres. rewrite Hs in Hv. injection Hv as <-.
  by apply (generic_resolves (Some (VObj _ _ ss sa))) in Hres.
Qed.

End Relations.

(** ** Further properties of the rendering *)

Section RenderingExtras.
Context (repr_ : Value → string) (timesince_ : Z → option Z → string)
        (get_object_for_this_type : ContentType → Z → option Value).

Lemma bypass_key_frame d acc c ctx' :
  bypass_key d acc c = Ok ctx' →
  ∃ ctx, acc = Ok ctx ∧
    (∀ key, is_Some (ctx' !! key) ↔ is_Some (ctx !! key)) ∧
    (∀ key, key ≠ c → ctx' !! key = ctx !! key).
Proof.
  unfold bypass_key. destruct acc as [ctx|]; simpl; [|done].
  intros H. exists ctx. split; [done|].
  destruct (ctx !! c) eqn:Hc; [|by simplify_eq].
  repeat case_match; simplify_eq/=.
  destruct (getattr _ _); simplify_eq/=. split.
  - intros key. destruct (decide (c = key)) as [->|].
    + rewrite lookup_insert_eq, Hc. split; eauto.
    + by rewrite lookup_insert_ne.
  - intros key Hne. by rewrite lookup_insert_ne.
Qed.

Lemma foldl_bypass_frame d keys acc ctx' :
  foldl (bypass_key d) acc keys = Ok ctx' →
  ∃ ctx, acc = Ok ctx ∧
    (∀ key, is_Some (ctx' !! key) ↔ is_Some (ctx !! key)) ∧
    (∀ key, key ∉ keys → ctx' !! key = ctx !! key).
Proof.
  revert acc. induction keys as [|c keys IH]; intros acc; simpl.
  - intros ->. eauto.
  - intros H. apply IH in H as (ctx1 & H1 & Hd1 & Hf1).
    apply bypass_key_frame in H1 as (ctx & -> & Hd & Hf).
    exists ctx. split; [done|]. split.
    + intros key. by rewrite Hd1, Hd.
    + intros key Hkey. apply not_elem_of_cons in Hkey as [Hne Hnin].
      by rewrite Hf1, Hf.
Qed.

(** X18.  The loop over [custom_ctx] neither adds nor removes a key of the
    context, leaves every key that [custom_ctx] does not name as it was,
    and a [custom_ctx] that is no dictionary changes nothing. *)
Theorem custom_ctx_frame cc ctx ctx' :
  apply_custom_ctx cc ctx = Ok ctx' →
  (∀ key, is_Some (ctx' !! key) ↔ is_Some (ctx !! key)) ∧
  (∀ key, (∀ d, cc = VDict d → key ∉ d.*1) → ctx' !! key = ctx !! key).
Proof.
  unfold apply_custom_ctx. destruct (truthy cc); [|by intros [= <-]].
  destruct cc; try done; try (by intros [= <-]).
  intros H. apply foldl_bypass_frame in H as (ctx0 & [= <-] & Hd & Hf).
  split; [done|]. intros key Hkey. apply Hf. by apply Hkey.
Qed.

Lemma append_cons a s1 s2 : String a s1 +:+ s2 = String a (s1 +:+ s2).
Proof. reflexivity. Qed.

Lemma append_empty_r s : s +:+ "" = s.
Proof.
  induction s as [|a s IH]; [done|]. by rewrite append_cons, IH.
Qed.

Lemma snoc_app k c s : snoc k c +:+ s = k +:+ String c s.
Proof.
  induction k as [|a k IH]; [done|].
  cbn [snoc]. by rewrite !append_cons, IH.
Qed.

Lemma interp_text pre s ctx :
  lacks "%" pre = true →
  interp repr_ Text (pre +:+ s) ctx
  = s' ← interp repr_ Text s ctx; Ok (pre +:+ s').
Proof.
  induction pre as [|a pre IH].
  - intros _. change ("" +:+ s) with s.
    by destruct (interp repr_ Text s ctx).
  - intros H. cbn [lacks] in H. apply andb_true_iff in H as [Ha Hpre].
    apply negb_true_iff in Ha. rewrite append_cons. cbn [interp].
    rewrite Ha, (IH Hpre).
    by destruct (interp repr_ Text s ctx).
Qed.

Lemma interp_key acc k rest ctx :
  lacks "(" k = true → lacks ")" k = true →
  interp repr_ (Key 0 acc) (k +:+ String ")" rest) ctx
  = match ctx !! (acc +:+ k) with
    | Some v => interp repr_ (Conv v) rest ctx
    | None => Raise (KeyError (acc +:+ k))
    end.
Proof.
  revert acc. induction k as [|a k IH]; intros acc.
  - intros _ _. rewrite append_empty_r. done.
  - intros Ho Hc. cbn [lacks] in Ho, Hc.
    apply andb_true_iff in Ho as [Hao Ho].
    apply andb_true_iff in Hc as [Hac Hc].
    apply negb_true_iff in Hao, Hac. rewrite append_cons. cbn [interp].
    rewrite Hao, Hac, (IH _ Ho Hc), snoc_app. done.
Qed.

(** X19.  A custom format whose first directive names a key that the context
    does not have makes the rendering fail with the [KeyError] of that
    key. *)
Theorem custom_format_unknown_key (n : Notification) (pre k rest : string) :
  custom_str_format n = VStr (pre +:+ "%(" +:+ k +:+ ")" +:+ rest) →
  truthy (custom_ctx n) = false →
  lacks "%" pre = true → lacks "(" k = true → lacks ")" k = true →
  k ∉ ["actor"; "verb"; "action_object"; "target"; "timesince"] →
  __unicode__ true repr_ timesince_ get_object_for_this_type n
  = Raise (KeyError k).
Proof.
  intros Hf Hcc Hpre Ho Hc Hk.
  unfold __unicode__, read_custom_ctx. cbn [mbind result_bind].
  rewrite (apply_custom_ctx_falsy _ _ Hcc). cbn [mbind result_bind].
  rewrite Hf.
  assert (truthy (VStr (pre +:+ "%(" +:+ k +:+ ")" +:+ rest)) = true) as ->.
  { simpl. destruct pre; simpl; done. }
  unfold interpolate. rewrite interp_text by done.
  change ("%(" +:+ k +:+ ")" +:+ rest)
    with (String "%" (String "(" (k +:+ String ")" rest))).
  cbn [interp Ascii.eqb Bool.eqb]. simpl Ascii.eqb. cbn [interp].
  rewrite interp_key by done. change ("" +:+ k) with k.
  assert (context timesince_ get_object_for_this_type n !! k = None) as ->.
  { unfold context. rewrite !lookup_insert_ne; [done|..];
      intros <-; apply Hk;
      repeat first [apply list_elem_of_here | apply list_elem_of_further]. }
  done.
Qed.

End RenderingExtras.

(** ** Loading the module *)

(** X20.  The import fails only when the setting is on and the field package
    of the configured backend is missing, and then with
    [ImproperlyConfigured]; otherwise [EXTRA_DATA] is the truth value of
    the setting, false when the setting is absent. *)
Theorem load_EXTRA_DATA_outcome (env : Environment) :
  let wanted := truthy (default (VBool false) (NOTIFY_USE_JSONFIELD env)) in
  let available := if mongodb_in_DATABASES env then has_djangotoolbox env
                   else has_jsonfield env in
  (wanted = true ∧ available = false ∧
   ∃ msg, load_EXTRA_DATA env = Raise (ImproperlyConfigured msg)) ∨
  ((wanted = false ∨ available = true) ∧ load_EXTRA_DATA env = Ok wanted).
Proof.
  unfold load_EXTRA_DATA. cbv zeta.
  destruct (truthy _); [|right; split; [by left|done]].
  destruct (mongodb_in_DATABASES env).
  - destruct (has_djangotoolbox env).
    + right. split; [by right|done].
    + left. split; [done|]. split; [done|]. by eexists.
  - destruct (has_jsonfield env).
    + right. split; [by right|done].
    + left. split; [done|]. split; [done|]. by eexists.
Qed.

(** ** The further properties at the sample data *)

Lemma mark_all_as_read_changes_witness :
  ∃ n, Sample.inbox !! 1 = Some n ∧
       (set_unread false Sample.commented = n ∨
        (set_unread false Sample.commented = set_unread false n ∧
         matches Sample.inbox [] n = true ∧ unread n = true ∧
         addressed_to (Some Sample.bob_user) n)).
Proof.
  apply (proj2 (mark_all_as_read_changes [] (Some Sample.bob_user)
                  Sample.inbox) 1 (set_unread false Sample.commented)).
  vm_compute; reflexivity.
Defined.

Lemma mark_all_as_unread_changes_witness :
  ∃ n, Sample.timeline !! 3 = Some n ∧
       (set_unread true (Sample.note 3 2 false "liked" None None 200 VNone)
        = n ∨
        (set_unread true (Sample.note 3 2 false "liked" None None 200 VNone)
         = set_unread true n ∧
         matches Sample.timeline [] n = true ∧ unread n = false ∧
         addressed_to None n)).
Proof.
  apply (proj2 (mark_all_as_unread_changes [] None Sample.timeline) 3
           (set_unread true
              (Sample.note 3 2 false "liked" None None 200 VNone))).
  vm_compute; reflexivity.
Defined.

Lemma mark_all_as_read_leaves_none_unread_witness :
  ∃ R, Some Sample.bob_user = Some R ∧
       recipient Sample.closed ≠ user_pk R.
Proof.
  apply (mark_all_as_read_leaves_none_unread [Sample.level_info]
           (Some Sample.bob_user) Sample.inbox 3 Sample.closed).
  - intros t t' n _. reflexivity.
  - vm_compute; reflexivity.
  - vm_compute; reflexivity.
Defined.

Lemma mark_all_as_unread_idempotent_witness :
  NotificationQuerySet.mark_all_as_unread [Sample.level_info] None
    (NotificationQuerySet.mark_all_as_unread [Sample.level_info] None
       Sample.timeline)
  = NotificationQuerySet.mark_all_as_unread [Sample.level_info] None
      Sample.timeline.
Proof.
  apply (mark_all_as_unread_idempotent [Sample.level_info] None
           Sample.timeline).
  intros t t' n _. reflexivity.
Defined.

Lemma mark_all_as_unread_undoes_read_witness :
  NotificationQuerySet.mark_all_as_unread [] (Some Sample.bob_user)
    (NotificationQuerySet.mark_all_as_read [] (Some Sample.bob_user)
       Sample.inbox) = Sample.inbox.
Proof.
  apply mark_all_as_unread_undoes_read.
  - intros t t' n b _. reflexivity.
  - intros k n Hk _. unfold Sample.inbox in Hk.
    destruct (decide (k = 1)) as [->|]; [by simplify_map_eq|].
    destruct (decide (k = 2)) as [->|]; [by simplify_map_eq|].
    destruct (decide (k = 3)) as [->|]; [by simplify_map_eq|].
    by simplify_map_eq.
Defined.

Lemma unread_read_filters_witness :
  Sample.note 3 2 false "liked" None None 200 VNone
    ∈ fetch (NotificationQuerySet.read []) Sample.timeline.
Proof.
  apply (proj2 (unread_read_filters [] Sample.timeline _)).
  split; [|reflexivity].
  apply fetch_elem_of. exists 3. split; vm_compute; reflexivity.
Defined.

Lemma mark_as_read_saved_witness :
  ∃ self' t',
    mark_as_read Sample.commented Sample.inbox = (self', t') ∧
    self' = set_unread false Sample.commented ∧
    t' !! 1 = Some self' ∧
    (∀ j, j ≠ 1 → t' !! j = Sample.inbox !! j) ∧
    mark_as_read self' t' = (self', t').
Proof.
  apply mark_as_read_saved; reflexivity.
Defined.

Lemma notify_handler_adds_one_row_witness :
  ∃ n t',
    notify_handler true "auth.user" Sample.repr_ 100 (VStr "commented on")
      Sample.kwargs Sample.inbox = Ok (n, t') ∧
    ∃ k, id n = Some k ∧ Sample.inbox !! k = None ∧ t' !! k = Some n ∧
         size t' = S (size Sample.inbox) ∧
         ∀ j n0, Sample.inbox !! j = Some n0 → t' !! j = Some n0.
Proof.
  eexists _, _. split; [vm_compute; reflexivity|].
  refine (notify_handler_adds_one_row true "auth.user" Sample.repr_ 100
            (VStr "commented on") Sample.kwargs Sample.inbox _ _ _).
  vm_compute; reflexivity.
Defined.

Lemma notify_handler_stores_payload_witness :
  ∃ n t',
    notify_handler true "auth.user" Sample.repr_ 100 (VStr "commented on")
      Sample.kwargs ∅ = Ok (n, t') ∧
    verb n = "commented on" ∧ recipient n = 2 ∧
    actor_content_type n = "auth.user" ∧ actor_object_id n = 1 ∧
    ∃ ss sa, Sample.kwargs !! "sender"
             = Some (VObj (actor_content_type n) (Some (actor_object_id n))
                       ss sa).
Proof.
  eexists _, _. split; [vm_compute; reflexivity|].
  split; [reflexivity|]. split; [reflexivity|]. split; [reflexivity|].
  split; [reflexivity|].
  refine (proj1 (proj2 (proj2
    (notify_handler_stores_payload true "auth.user" Sample.repr_ 100
       (VStr "commented on") Sample.kwargs ∅ _ _ _)))).
  vm_compute; reflexivity.
Defined.

Lemma notify_handler_defaults_witness :
  ∃ n t',
    notify_handler true "auth.user" Sample.repr_ 100 (VStr "commented on")
      Sample.kwargs_plain ∅ = Ok (n, t') ∧
    level n = "info" ∧ public n = true ∧ timestamp n = 100.
Proof.
  eexists _, _. split; [vm_compute; reflexivity|].
  pose proof (notify_handler_defaults true "auth.user" Sample.repr_ 100
                (VStr "commented on") Sample.kwargs_plain ∅ _ _
                ltac:(vm_compute; reflexivity))
    as (Hl & Hp & _ & Ht & _).
  split; [exact Hl|]. split; [apply Hp|apply Ht]; vm_compute; reflexivity.
Defined.

Lemma notify_handler_rejects_non_objects_witness :
  ∃ e, notify_handler true "auth.user" Sample.repr_ 100 (VStr "liked")
         Sample.kwargs_bad_target ∅ = Raise e.
Proof.
  apply notify_handler_rejects_non_objects. left.
  vm_compute. intros [].
Defined.

Lemma notify_handler_data_witness :
  ∃ n t',
    notify_handler true "auth.user" Sample.repr_ 100 (VStr "commented on")
      Sample.kwargs ∅ = Ok (n, t') ∧
    data_lookup n "foo" = Some (VInt 3) ∧
    data_lookup n "target" = None.
Proof.
  destruct (notify_handler true "auth.user" Sample.repr_ 100
              (VStr "commented on") Sample.kwargs ∅) as [[n t']|e] eqn:H.
  - exists n, t'. split; [reflexivity|].
    rewrite (notify_handler_data true "auth.user" Sample.repr_ 100
               (VStr "commented on") Sample.kwargs ∅ n t' "foo" eq_refl H).
    rewrite (notify_handler_data true "auth.user" Sample.repr_ 100
               (VStr "commented on") Sample.kwargs ∅ n t' "target" eq_refl H).
    split; vm_compute; reflexivity.
  - exfalso. vm_compute in H. discriminate.
Defined.

Lemma generic_relations_round_trip_witness :
  ∃ n t',
    notify_handler true "auth.user" Sample.repr_ 100 (VStr "commented on")
      Sample.kwargs ∅ = Ok (n, t') ∧
    actor Sample.objects n = Sample.alice ∧
    target Sample.objects n = Sample.repo ∧
    action_object Sample.objects n = VNone.
Proof.
  eexists _, _. split; [vm_compute; reflexivity|].
  pose proof (generic_relations_round_trip true "auth.user" Sample.repr_
                Sample.objects 100 (VStr "commented on") Sample.kwargs ∅ _ _
                ltac:(vm_compute; reflexivity))
    as (Ha & Ht & Ho).
  split; [apply Ha; vm_compute; reflexivity|].
  split; [apply Ht; vm_compute; reflexivity|].
  apply Ho; vm_compute; exact I.
Defined.

Lemma custom_format_rendering_witness :
  __unicode__ true Sample.repr_ Sample.timesince_ Sample.objects
    Sample.formatted
  = Ok "alice did closed".
Proof.
  rewrite (custom_format_rendering Sample.repr_ Sample.timesince_
             Sample.objects Sample.formatted "%(actor)s did %(verb)s").
  - vm_compute; reflexivity.
  - reflexivity.
  - discriminate.
Defined.

Lemma custom_ctx_frame_witness :
  apply_custom_ctx Sample.by_name
    (context Sample.timesince_ Sample.objects Sample.commented)
  = Ok (<["target" := VStr "pinax"]>
          (context Sample.timesince_ Sample.objects Sample.commented)) ∧
  <["target" := VStr "pinax"]>
    (context Sample.timesince_ Sample.objects Sample.commented) !! "actor"
  = context Sample.timesince_ Sample.objects Sample.commented !! "actor".
Proof.
  assert (apply_custom_ctx Sample.by_name
            (context Sample.timesince_ Sample.objects Sample.commented)
          = Ok (<["target" := VStr "pinax"]>
                  (context Sample.timesince_ Sample.objects Sample.commented)))
    as H by (vm_compute; reflexivity).
  split; [exact H|].
  apply (proj2 (custom_ctx_frame _ _ _ H) "actor").
  intros d [= <-]. simpl. intros Hin.
  apply elem_of_cons in Hin as [Hin|Hin]; [discriminate|].
  by apply elem_of_nil in Hin.
Defined.

Lemma custom_format_unknown_key_witness :
  __unicode__ true Sample.repr_ Sample.timesince_ Sample.objects
    Sample.unknown_key
  = Raise (KeyError "foo").
Proof.
  apply (custom_format_unknown_key Sample.repr_ Sample.timesince_
           Sample.objects Sample.unknown_key "" "foo" "s");
    try reflexivity.
  intros Hin.
  repeat (apply elem_of_cons in Hin as [Hin|Hin]; [discriminate|]).
  by apply elem_of_nil in Hin.
Defined.
